(** * Clinic records: patients, registry, serialization, ordering, approval chain

    A shallow embedding of [hw_OOP.py].  Python objects become records and
    tagged unions, dictionaries become insertion-ordered association lists,
    exceptions become the left summand of a result type, and [print] and the
    mutation of the object under treatment are threaded through a small
    state-and-error monad. *)

From Stdlib Require Import String Ascii DecimalString.
From Stdlib Require Import List ZArith NArith Bool Lia.
Import ListNotations.

#[local] Set Warnings "-register-all".

Local Open Scope bool_scope.

(* ================================================================== *)
(** ** Python strings *)
(* ================================================================== *)

(** A Python [str] is a sequence of Unicode code points. *)
Definition pystr : Type := list N.

(** Source literals are written as UTF-8 text and decoded by [u]. *)
Fixpoint u (s : string) : pystr :=
  match s with
  | EmptyString => []
  | String c r =>
      let b := N_of_ascii c in
      if (b <? 128)%N then b :: u r
      else match r with
      | EmptyString => []
      | String c2 r2 =>
          let b2 := (N_of_ascii c2 - 128)%N in
          if (b <? 224)%N then ((b - 192) * 64 + b2)%N :: u r2
          else match r2 with
          | EmptyString => []
          | String c3 r3 =>
              let b3 := (N_of_ascii c3 - 128)%N in
              if (b <? 240)%N then ((b - 224) * 4096 + b2 * 64 + b3)%N :: u r3
              else match r3 with
              | EmptyString => []
              | String c4 r4 =>
                  let b4 := (N_of_ascii c4 - 128)%N in
                  ((b - 240) * 262144 + b2 * 4096 + b3 * 64 + b4)%N :: u r4
              end
          end
      end
  end.

Fixpoint str_eqb (a b : pystr) : bool :=
  match a, b with
  | [], [] => true
  | x :: a', y :: b' => (x =? y)%N && str_eqb a' b'
  | _, _ => false
  end.

(** Lexicographic order on code points: [a < b] on two [str]. *)
Fixpoint str_ltb (a b : pystr) : bool :=
  match a, b with
  | _, [] => false
  | [], _ :: _ => true
  | x :: a', y :: b' => (x <? y)%N || ((x =? y)%N && str_ltb a' b')
  end.

Fixpoint isprefix (needle hay : pystr) : bool :=
  match needle, hay with
  | [], _ => true
  | _ :: _, [] => false
  | x :: n', y :: h' => (x =? y)%N && isprefix n' h'
  end.

(** [needle in hay] on two [str]: substring search. *)
Fixpoint contains (needle hay : pystr) : bool :=
  isprefix needle hay ||
  match hay with
  | [] => false
  | _ :: h' => contains needle h'
  end.

(** [sep.join(parts)] *)
Fixpoint join (sep : pystr) (parts : list pystr) : pystr :=
  match parts with
  | [] => []
  | [p] => p
  | p :: rest => p ++ sep ++ join sep rest
  end.

Definition is_ascii (c : N) : bool := (c <? 128)%N.

Definition ascii_lower (c : N) : N :=
  if (65 <=? c)%N && (c <=? 90)%N then (c + 32)%N else c.

(* ================================================================== *)
(** ** Python values and exceptions *)
(* ================================================================== *)

(** The values that fields, arguments and records hold: [None], [bool],
    [int], [str], [list] and [dict] with [str] keys (a dictionary keeps its
    insertion order; its keys are pairwise distinct).  Floats are left out. *)
Inductive pyval : Type :=
  | VNone
  | VBool (b : bool)
  | VInt (z : Z)
  | VStr (s : pystr)
  | VList (l : list pyval)
  | VDict (d : list (pystr * pyval)).

Inductive exn : Type :=
  | ValueError (message : pystr)
  | PermissionDeniedError (message : pystr)
  | KeyError (key : pystr)
  | TypeError
  | AttributeError.

(** A computation that returns or raises. *)
Definition result (A : Type) : Type := exn + A.

Definition rbind {A B} (r : result A) (k : A -> result B) : result B :=
  match r with
  | inl e => inl e
  | inr a => k a
  end.

Declare Scope result_scope.
Delimit Scope result_scope with result.
Notation "x <- r ;; k" := (rbind r (fun x => k))
  (at level 61, r at next level, right associativity) : result_scope.

(** *** Dictionaries *)

Section Dict.
Context {V : Type}.

Fixpoint dict_get (k : pystr) (d : list (pystr * V)) : option V :=
  match d with
  | [] => None
  | (k', v) :: d' => if str_eqb k k' then Some v else dict_get k d'
  end.

(** [d[k] = v]: overwrite in place, or append a new key at the end. *)
Fixpoint dict_set (k : pystr) (v : V) (d : list (pystr * V)) : list (pystr * V) :=
  match d with
  | [] => [(k, v)]
  | (k', v') :: d' =>
      if str_eqb k k' then (k', v) :: d' else (k', v') :: dict_set k v d'
  end.
End Dict.

(** *** Truth value, equality, order, length *)

(** [bool(v)] *)
Definition truthy (v : pyval) : bool :=
  match v with
  | VNone => false
  | VBool b => b
  | VInt z => negb (z =? 0)%Z
  | VStr s => match s with [] => false | _ => true end
  | VList l => match l with [] => false | _ => true end
  | VDict d => match d with [] => false | _ => true end
  end.

(** [a == b] *)
Fixpoint py_eq (a b : pyval) : bool :=
  match a, b with
  | VNone, VNone => true
  | VBool x, VBool y => Bool.eqb x y
  | VBool x, VInt y => (Z.b2z x =? y)%Z
  | VInt x, VBool y => (x =? Z.b2z y)%Z
  | VInt x, VInt y => (x =? y)%Z
  | VStr x, VStr y => str_eqb x y
  | VList xs, VList ys =>
      (fix go (xs ys : list pyval) : bool :=
         match xs, ys with
         | [], [] => true
         | x :: xs', y :: ys' => py_eq x y && go xs' ys'
         | _, _ => false
         end) xs ys
  | VDict dx, VDict dy =>
      (length dx =? length dy)%nat &&
      (fix go (dx : list (pystr * pyval)) : bool :=
         match dx with
         | [] => true
         | (k, v) :: dx' =>
             match dict_get k dy with
             | Some v' => py_eq v v' && go dx'
             | None => false
             end
         end) dx
  | _, _ => false
  end.

(** [a < b]; values of unordered or mixed types raise [TypeError]. *)
Fixpoint py_lt (a b : pyval) : result bool :=
  match a, b with
  | VBool x, VBool y => inr (Z.b2z x <? Z.b2z y)%Z
  | VBool x, VInt y => inr (Z.b2z x <? y)%Z
  | VInt x, VBool y => inr (x <? Z.b2z y)%Z
  | VInt x, VInt y => inr (x <? y)%Z
  | VStr x, VStr y => inr (str_ltb x y)
  | VList xs, VList ys =>
      (fix go (xs ys : list pyval) : result bool :=
         match xs, ys with
         | _, [] => inr false
         | [], _ :: _ => inr true
         | x :: xs', y :: ys' => if py_eq x y then go xs' ys' else py_lt x y
         end) xs ys
  | _, _ => inl TypeError
  end.

(** [a > b] *)
Definition py_gt (a b : pyval) : result bool := py_lt b a.

(** [len(v)] *)
Definition py_len (v : pyval) : result nat :=
  match v with
  | VStr s => inr (length s)
  | VList l => inr (length l)
  | VDict d => inr (length d)
  | _ => inl TypeError
  end.

(** [v.get(k, default)]: only a [dict] has the method. *)
Definition py_get (v : pyval) (k : pystr) (default : pyval) : result pyval :=
  match v with
  | VDict d => inr (match dict_get k d with Some x => x | None => default end)
  | _ => inl AttributeError
  end.

(** [v[k]] with a [str] key [k]. *)
Definition py_getitem (v : pyval) (k : pystr) : result pyval :=
  match v with
  | VDict d => match dict_get k d with Some x => inr x | None => inl (KeyError k) end
  | _ => inl TypeError
  end.

(** [for x in v]: the items a loop over [v] visits. *)
Definition py_iter (v : pyval) : result (list pyval) :=
  match v with
  | VList l => inr l
  | VStr s => inr (map (fun c => VStr [c]) s)
  | VDict d => inr (map (fun kv => VStr (fst kv)) d)
  | _ => inl TypeError
  end.

(** *** The interpreter's Unicode services

    [str.lower()] and [str(v)] (as used by f-strings) depend on the Unicode
    character database and on [repr]; the program relies on them only
    through the two laws below. *)
Class PyRuntime : Type := {
  lower : pystr -> pystr;
  py_str : pyval -> pystr;
  lower_ascii : forall s, forallb is_ascii s = true -> lower s = map ascii_lower s;
  py_str_str : forall s, py_str (VStr s) = s
}.

(** [v.lower()]: [None] has no such method, nor has any value but a
    [str]. *)
Definition py_lower `{PyRuntime} (v : pyval) : result pystr :=
  match v with
  | VStr s => inr (lower s)
  | _ => inl AttributeError
  end.

(* ================================================================== *)
(** ** Effects: the object a call works on, and standard output *)
(* ================================================================== *)

(** A method call runs against the object it may mutate and the lines
    printed so far; an exception leaves both as they were when it was
    raised. *)
Record world (O : Type) : Type := World { obj : O; stdout : list pystr }.
Arguments World {O} _ _.
Arguments obj {O} _.
Arguments stdout {O} _.

Definition M (O A : Type) : Type := world O -> result A * world O.

Definition ret {O A} (a : A) : M O A := fun w => (inr a, w).

Definition bind {O A B} (c : M O A) (k : A -> M O B) : M O B :=
  fun w => match c w with
           | (inl e, w') => (inl e, w')
           | (inr a, w') => k a w'
           end.

Definition raise {O A} (e : exn) : M O A := fun w => (inl e, w).

Definition lift {O A} (r : result A) : M O A := fun w => (r, w).

Definition print {O} (line : pystr) : M O unit :=
  fun w => (inr tt, World (obj w) (stdout w ++ [line])).

Definition get_obj {O} : M O O := fun w => (inr (obj w), w).

Definition put_obj {O} (o : O) : M O unit :=
  fun w => (inr tt, World o (stdout w)).

Declare Scope prog_scope.
Delimit Scope prog_scope with prog.
Notation "x <- c ;; k" := (bind c (fun x => k))
  (at level 61, c at next level, right associativity) : prog_scope.
Notation "c ;; k" := (bind c (fun _ => k))
  (at level 61, right associativity) : prog_scope.

(* ================================================================== *)
(** ** Patient classes and the registry kept by the metaclass *)
(* ================================================================== *)

(** The classes created with metaclass [PatientMeta], in source order. *)
Inductive PatientClass : Type :=
  | Patient
  | AdultPatient
  | ChildPatient
  | SeniorPatient
  | PatientWithNotifications.

Definition class_eqb (a b : PatientClass) : bool :=
  match a, b with
  | Patient, Patient
  | AdultPatient, AdultPatient
  | ChildPatient, ChildPatient
  | SeniorPatient, SeniorPatient
  | PatientWithNotifications, PatientWithNotifications => true
  | _, _ => false
  end.

(** [cls.__name__] *)
Definition class_name (c : PatientClass) : pystr :=
  match c with
  | Patient => u "Patient"
  | AdultPatient => u "AdultPatient"
  | ChildPatient => u "ChildPatient"
  | SeniorPatient => u "SeniorPatient"
  | PatientWithNotifications => u "PatientWithNotifications"
  end.

(** [issubclass(c, d)]: every class derives from [Patient] directly. *)
Definition issubclass (c d : PatientClass) : bool :=
  class_eqb c d || class_eqb d Patient.

Definition class_definitions : list PatientClass :=
  [Patient; AdultPatient; ChildPatient; SeniorPatient; PatientWithNotifications].

Module PatientMeta.
Section WithRuntime.
Context `{PyRuntime}.

(** [PatientMeta.__new__]: the effect of one class statement on the
    registry. *)
Definition __new__ (registry : list (pystr * PatientClass)) (c : PatientClass)
  : list (pystr * PatientClass) :=
  if negb (str_eqb (class_name c) (u "Patient"))
  then dict_set (lower (class_name c)) c registry
  else registry.

(** The registry once the module is loaded. *)
Definition _registry : list (pystr * PatientClass) :=
  fold_left __new__ class_definitions [].

Definition get_patient_class (patient_type : pyval) : result (option PatientClass) :=
  rbind (py_lower patient_type) (fun tag => inr (dict_get tag _registry)).
End WithRuntime.
End PatientMeta.

(* ================================================================== *)
(** ** Calling a constructor: binding arguments to parameters *)
(* ================================================================== *)

(** The parameters not bound positionally take their values from the
    keywords; one that no keyword names is missing. *)
Fixpoint fill_params (kwargs : list (pystr * pyval)) (ps : list pystr)
    : result (list pyval) :=
  match ps with
  | [] => inr []
  | p :: ps' =>
      match dict_get p kwargs with
      | None => inl TypeError
      | Some v => rbind (fill_params kwargs ps') (fun vs => inr (v :: vs))
      end
  end.

(** Binds positional and keyword arguments to a parameter list without
    defaults.  Too many positionals, an unknown keyword, a parameter given
    twice and a parameter left out all raise [TypeError]. *)
Definition bind_args (params : list pystr) (args : list pyval)
    (kwargs : list (pystr * pyval)) : result (list pyval) :=
  if (length params <? length args)%nat then inl TypeError
  else
    let rest := skipn (length args) params in
    if negb (forallb (fun kv => existsb (str_eqb (fst kv)) rest) kwargs)
    then inl TypeError
    else rbind (fill_params kwargs rest) (fun vs => inr (args ++ vs)).

(* ================================================================== *)
(** ** Patients *)
(* ================================================================== *)

Module Patient.

(** The private attributes set by [Patient.__init__]. *)
Record fields : Type := Fields {
  patient_id : pyval;
  name : pyval;
  age : pyval;
  gender : pyval;
  medical_history : pyval
}.

(** An instance of one of the concrete classes, with the attribute its
    own [__init__] adds. *)
Inductive t : Type :=
  | Adult (f : fields) (occupation : pyval)
  | Child (f : fields) (guardian : pyval)
  | Senior (f : fields) (chronic_conditions : pyval)
  | WithNotifications (f : fields).

(** [self.__class__] *)
Definition class_of (self : t) : PatientClass :=
  match self with
  | Adult _ _ => AdultPatient
  | Child _ _ => ChildPatient
  | Senior _ _ => SeniorPatient
  | WithNotifications _ => PatientWithNotifications
  end.

Definition base (self : t) : fields :=
  match self with
  | Adult f _ | Child f _ | Senior f _ | WithNotifications f => f
  end.

Definition with_base (self : t) (f : fields) : t :=
  match self with
  | Adult _ x => Adult f x
  | Child _ x => Child f x
  | Senior _ x => Senior f x
  | WithNotifications _ => WithNotifications f
  end.

Definition occupation (self : t) : option pyval :=
  match self with Adult _ x => Some x | _ => None end.

Definition guardian (self : t) : option pyval :=
  match self with Child _ x => Some x | _ => None end.

Definition chronic_conditions (self : t) : option pyval :=
  match self with Senior _ x => Some x | _ => None end.

Definition isinstance (self : t) (c : PatientClass) : bool :=
  issubclass (class_of self) c.

(** [getattr(self, attr, default)] on the data attributes (the
    properties) of the instance. *)
Definition getattr (self : t) (attr : pystr) (default : pyval) : pyval :=
  let own (a : pystr) (x : option pyval) (otherwise : pyval) : pyval :=
    if str_eqb attr a then match x with Some v => v | None => default end
    else otherwise in
  own (u "patient_id") (Some (patient_id (base self))) (
  own (u "name") (Some (name (base self))) (
  own (u "age") (Some (age (base self))) (
  own (u "gender") (Some (gender (base self))) (
  own (u "medical_history") (Some (medical_history (base self))) (
  own (u "occupation") (occupation self) (
  own (u "guardian") (guardian self) (
  own (u "chronic_conditions") (chronic_conditions self) default))))))).

(** *** Construction *)

Definition base_params : list pystr :=
  [u "patient_id"; u "name"; u "age"; u "gender"; u "medical_history"].

(** The parameters of [c.__init__] after [self]. *)
Definition init_params (c : PatientClass) : list pystr :=
  match c with
  | Patient | PatientWithNotifications => base_params
  | AdultPatient => base_params ++ [u "occupation"]
  | ChildPatient => base_params ++ [u "guardian"]
  | SeniorPatient => base_params ++ [u "chronic_conditions"]
  end.

(** [__init__] stores its arguments as they come: the private attributes
    are assigned directly, not through the validating setters. *)
Definition __init__ (c : PatientClass) (bound : list pyval) : result t :=
  match c, bound with
  | AdultPatient, [i; n; a; g; m; x] => inr (Adult (Fields i n a g m) x)
  | ChildPatient, [i; n; a; g; m; x] => inr (Child (Fields i n a g m) x)
  | SeniorPatient, [i; n; a; g; m; x] => inr (Senior (Fields i n a g m) x)
  | PatientWithNotifications, [i; n; a; g; m] => inr (WithNotifications (Fields i n a g m))
  | _, _ => inl TypeError
  end.

(** Calling class [c] with positional and keyword arguments.  The
    abstract base cannot be instantiated. *)
Definition new (c : PatientClass) (args : list pyval)
    (kwargs : list (pystr * pyval)) : result t :=
  match c with
  | Patient => inl TypeError
  | _ => rbind (bind_args (init_params c) args kwargs) (__init__ c)
  end.

(** *** Setters *)

Local Open Scope prog_scope.

(** [@age.setter]: [if 1 < age < 110: self.__age = age], else a message
    is printed. *)
Definition set_age (a : pyval) : M t unit :=
  above <- lift (py_lt (VInt 1) a) ;;
  in_range <- (if above : bool then lift (py_lt a (VInt 110)) else ret false) ;;
  if in_range : bool then
    self <- get_obj ;;
    let f := base self in
    put_obj (with_base self
      (Fields (patient_id f) (name f) a (gender f) (medical_history f)))
  else print (u "Недопустимый возраст").

(** [@gender.setter] *)
Definition set_gender (g : pyval) : M t unit :=
  if py_eq g (VStr (u "м")) || py_eq g (VStr (u "ж")) then
    self <- get_obj ;;
    let f := base self in
    put_obj (with_base self
      (Fields (patient_id f) (name f) (age f) g (medical_history f)))
  else print (u "Недопустимый пол").

Local Close Scope prog_scope.

(** *** Comparison *)

Local Open Scope result_scope.

Definition __lt__ (self other : t) : result bool :=
  younger <- py_lt (age (base self)) (age (base other)) ;;
  if younger : bool then inr true
  else if py_eq (age (base self)) (age (base other)) then
    n <- py_len (medical_history (base self)) ;;
    m <- py_len (medical_history (base other)) ;;
    inr (n <? m)%nat
  else inr false.

Definition __gt__ (self other : t) : result bool :=
  older <- py_gt (age (base self)) (age (base other)) ;;
  if older : bool then inr true
  else if py_eq (age (base self)) (age (base other)) then
    n <- py_len (medical_history (base self)) ;;
    m <- py_len (medical_history (base other)) ;;
    inr (m <? n)%nat
  else inr false.

(** [and] does not measure the histories when the ages differ. *)
Definition __eq__ (self other : t) : result bool :=
  if py_eq (age (base self)) (age (base other)) then
    n <- py_len (medical_history (base self)) ;;
    m <- py_len (medical_history (base other)) ;;
    inr (n =? m)%nat
  else inr false.

(** *** Serialization *)

Section WithRuntime.
Context `{PyRuntime}.

Definition to_dict (self : t) : pyval :=
  let f := base self in
  let base_dict := [
    (u "patient_id", patient_id f);
    (u "name", name f);
    (u "age", age f);
    (u "gender", gender f);
    (u "medical_history",
       if truthy (medical_history f) then medical_history f else VStr []);
    (u "type", VStr (lower (class_name (class_of self)))) ] in
  VDict (
    if isinstance self AdultPatient then
      dict_set (u "occupation") (getattr self (u "occupation") (VStr [])) base_dict
    else if isinstance self ChildPatient then
      dict_set (u "guardian") (getattr self (u "guardian") (VStr [])) base_dict
    else if isinstance self SeniorPatient then
      dict_set (u "chronic_conditions")
        (getattr self (u "chronic_conditions") (VStr [])) base_dict
    else base_dict).

Definition from_dict (data : pyval) : result t :=
  ty <- py_get data (u "type") VNone ;;
  patient_class <- PatientMeta.get_patient_class ty ;;
  match patient_class with
  | None =>
      ty' <- py_get data (u "type") VNone ;;
      inl (ValueError (u "Неизвестный тип пациента: " ++ py_str ty'))
  | Some c =>
      extra_args <-
        (if class_eqb c AdultPatient then
           x <- py_get data (u "occupation") (VStr []) ;;
           inr [(u "occupation", x)]
         else if class_eqb c ChildPatient then
           x <- py_get data (u "guardian") (VStr []) ;;
           inr [(u "guardian", x)]
         else if class_eqb c SeniorPatient then
           x <- py_get data (u "chronic_conditions") (VStr []) ;;
           inr [(u "chronic_conditions", x)]
         else inr []) ;;
      i <- py_get data (u "patient_id") VNone ;;
      n <- py_get data (u "name") VNone ;;
      a <- py_get data (u "age") VNone ;;
      g <- py_get data (u "gender") VNone ;;
      m <- py_get data (u "medical_history") (VStr []) ;;
      new c [] ([ (u "patient_id", i); (u "name", n); (u "age", a);
                  (u "gender", g); (u "medical_history", m) ] ++ extra_args)
  end.
End WithRuntime.

Local Close Scope result_scope.
End Patient.

(* ================================================================== *)
(** ** The factory *)
(* ================================================================== *)

Module PatientFactory.
Section WithRuntime.
Context `{PyRuntime}.
Local Open Scope result_scope.

Definition create_patient (patient_type : pyval) (args : list pyval)
    (kwargs : list (pystr * pyval)) : result Patient.t :=
  patient_class <- PatientMeta.get_patient_class patient_type ;;
  match patient_class with
  | Some c => Patient.new c args kwargs
  | None => inl (ValueError (u "Неизвестный тип пациента: " ++ py_str patient_type))
  end.
End WithRuntime.
End PatientFactory.

(* ================================================================== *)
(** ** Appointments *)
(* ================================================================== *)

Module DoctorInfo.
Record t : Type := Make { name : pyval; specialty : pyval; contact_info : pyval }.
End DoctorInfo.

Module Service.
Record t : Type := Make { name : pyval; price : pyval }.
End Service.

Inductive AppointmentClass : Type :=
  | Appointment
  | AppointmentWithLogging
  | AppointmentWithLoggingAndNotification.

Module Appointment.

Record t : Type := Make {
  class_of : AppointmentClass;
  appointment_id : pyval;
  patient : Patient.t;
  doctor : pyval;
  date : pyval;
  diagnosis : pyval;
  prescription : pyval;
  doctor_info : DoctorInfo.t;
  services : list Service.t
}.

(** [Appointment.__init__]: the service list starts empty. *)
Definition __init__ (appointment_id : pyval) (patient : Patient.t)
    (doctor date diagnosis prescription : pyval) (doctor_info : DoctorInfo.t) : t :=
  Make Appointment appointment_id patient doctor date diagnosis prescription
    doctor_info [].

(** [@diagnosis.setter] *)
Definition set_diagnosis (d : pyval) : M t unit :=
  fun w =>
    let a := obj w in
    (inr tt,
     World (Make (class_of a) (appointment_id a) (patient a) (doctor a) (date a)
              d (prescription a) (doctor_info a) (services a))
           (stdout w)).

Definition add_service (self : t) (service : Service.t) : t :=
  Make (class_of self) (appointment_id self) (patient self) (doctor self)
    (date self) (diagnosis self) (prescription self) (doctor_info self)
    (services self ++ [service]).

Local Open Scope result_scope.

(** The loop of [from_dict] over the service records. *)
Fixpoint add_services (appointment : t) (items : list pyval) : result t :=
  match items with
  | [] => inr appointment
  | service_data :: rest =>
      n <- py_getitem service_data (u "name") ;;
      p <- py_getitem service_data (u "price") ;;
      add_services (add_service appointment (Service.Make n p)) rest
  end.

Section WithRuntime.
Context `{PyRuntime}.

Definition to_dict (self : t) : pyval :=
  VDict [
    (u "appointment_id", appointment_id self);
    (u "patient", Patient.to_dict (patient self));
    (u "doctor", doctor self);
    (u "date", date self);
    (u "diagnosis", diagnosis self);
    (u "prescription", prescription self);
    (u "doctor_info", VDict [
       (u "name", DoctorInfo.name (doctor_info self));
       (u "specialty", DoctorInfo.specialty (doctor_info self));
       (u "contact_info", DoctorInfo.contact_info (doctor_info self)) ]);
    (u "services",
       VList (map (fun s => VDict [ (u "name", Service.name s);
                                    (u "price", Service.price s) ])
                  (services self))) ].

Definition from_dict (data : pyval) : result t :=
  patient_data <- py_getitem data (u "patient") ;;
  patient <- Patient.from_dict patient_data ;;
  di <- py_getitem data (u "doctor_info") ;;
  di_name <- py_getitem di (u "name") ;;
  di <- py_getitem data (u "doctor_info") ;;
  di_specialty <- py_getitem di (u "specialty") ;;
  di <- py_getitem data (u "doctor_info") ;;
  di_contact <- py_getitem di (u "contact_info") ;;
  let doctor_info := DoctorInfo.Make di_name di_specialty di_contact in
  appointment_id <- py_getitem data (u "appointment_id") ;;
  doctor <- py_getitem data (u "doctor") ;;
  date <- py_getitem data (u "date") ;;
  diagnosis <- py_getitem data (u "diagnosis") ;;
  prescription <- py_getitem data (u "prescription") ;;
  let appointment :=
    __init__ appointment_id patient doctor date diagnosis prescription
      doctor_info in
  service_records <- py_getitem data (u "services") ;;
  items <- py_iter service_records ;;
  add_services appointment items.
End WithRuntime.

Local Close Scope result_scope.
End Appointment.

(* ================================================================== *)
(** ** The chain of responsibility for diagnosis changes *)
(* ================================================================== *)

(** A handler and the successor it was given, if any.  Chains are built
    from their last handler backwards and are finite. *)
Inductive Handler : Type :=
  | Doctor (_successor : option Handler)
  | DepartmentHead (_successor : option Handler)
  | ChiefPhysician (_successor : option Handler).

Definition _successor (h : Handler) : option Handler :=
  match h with
  | Doctor s | DepartmentHead s | ChiefPhysician s => s
  end.

Definition set_successor (h : Handler) (successor : option Handler) : Handler :=
  match h with
  | Doctor _ => Doctor successor
  | DepartmentHead _ => DepartmentHead successor
  | ChiefPhysician _ => ChiefPhysician successor
  end.

Section Chain.
Context `{PyRuntime}.
Local Open Scope prog_scope.

Definition minor_change : pystr := u "незначительное изменение".
Definition treatment_revision : pystr := u "пересмотр лечения".

Definition doctor_approved : pystr := u "Врач одобрил изменение диагноза.".
Definition doctor_forwarded : pystr := u "Врач передал запрос выше по цепочке.".
Definition head_approved : pystr :=
  u "Заведующий отделением одобрил изменение диагноза.".
Definition head_forwarded : pystr :=
  u "Заведующий отделением передал запрос выше по цепочке.".
Definition chief_approved : pystr := u "Главный врач одобрил изменение диагноза.".
Definition not_approved : pystr := u "Изменение диагноза не может быть одобрено.".

(** [handle_request(appointment, new_diagnosis)], the appointment being
    the object of the world. *)
Fixpoint handle_request (self : Handler) (new_diagnosis : pyval)
    : M Appointment.t unit :=
  match self with
  | Doctor successor =>
      text <- lift (py_lower new_diagnosis) ;;
      if contains minor_change text then
        print doctor_approved ;;
        Appointment.set_diagnosis new_diagnosis
      else match successor with
      | Some next =>
          print doctor_forwarded ;;
          handle_request next new_diagnosis
      | None => print not_approved
      end
  | DepartmentHead successor =>
      text <- lift (py_lower new_diagnosis) ;;
      if contains treatment_revision text then
        print head_approved ;;
        Appointment.set_diagnosis new_diagnosis
      else match successor with
      | Some next =>
          print head_forwarded ;;
          handle_request next new_diagnosis
      | None => print not_approved
      end
  | ChiefPhysician _ =>
      print chief_approved ;;
      Appointment.set_diagnosis new_diagnosis
  end.

(** The decorator: [wrapper] checks the role before it calls [func]. *)
Definition check_permissions {O Args : Type} (required_roles : list pystr)
    (func : Args -> M O unit) : pyval -> Args -> M O unit :=
  fun user_role args =>
    if negb (existsb (fun role => py_eq user_role (VStr role)) required_roles)
    then raise (PermissionDeniedError
                  (u "Требуется одна из ролей: " ++ join (u ", ") required_roles))
    else func args.

Definition required_roles : list pystr :=
  [u "Doctor"; u "Department_head"; u "Chief_physician"].

(** [change_diagnosis(user_role, appointment, new_diagnosis, handler)] *)
Definition change_diagnosis : pyval -> pyval * Handler -> M Appointment.t unit :=
  check_permissions required_roles
    (fun '(new_diagnosis, handler) =>
       print (u "Запрос на изменение диагноза на '" ++ py_str new_diagnosis
                ++ u "'...") ;;
       handle_request handler new_diagnosis).
End Chain.

(* ================================================================== *)
(** ** A reference runtime *)
(* ================================================================== *)

(** Lowercasing of one code point on the scripts the program's literals
    are written in: Basic Latin, Latin-1 and Cyrillic. *)
Definition lower_cp (c : N) : N :=
  if (65 <=? c)%N && (c <=? 90)%N then (c + 32)%N
  else if (192 <=? c)%N && (c <=? 222)%N && negb (c =? 215)%N then (c + 32)%N
  else if (1024 <=? c)%N && (c <=? 1039)%N then (c + 80)%N
  else if (1040 <=? c)%N && (c <=? 1071)%N then (c + 32)%N
  else c.

(** Text of a value: a [str] as it is, numbers in decimal, containers with
    their items separated by commas and inner strings in single quotes. *)
Fixpoint render (quoted : bool) (v : pyval) : pystr :=
  match v with
  | VNone => u "None"
  | VBool true => u "True"
  | VBool false => u "False"
  | VInt z => u (NilZero.string_of_int (Z.to_int z))
  | VStr s => if quoted then u "'" ++ s ++ u "'" else s
  | VList l => u "[" ++ join (u ", ") (map (render true) l) ++ u "]"
  | VDict d =>
      u "{" ++
      join (u ", ")
        (map (fun kv : pystr * pyval =>
                let (k, x) := kv in u "'" ++ k ++ u "': " ++ render true x) d)
      ++ u "}"
  end.

#[export, refine] Instance reference_runtime : PyRuntime := {|
  lower := map lower_cp;
  py_str := render false
|}.
Proof.
  - induction s as [|c s IH]; simpl; intros Hs; [reflexivity|].
    apply andb_true_iff in Hs. destruct Hs as [Hc Hs].
    rewrite (IH Hs). f_equal.
    unfold is_ascii in Hc. apply N.ltb_lt in Hc.
    unfold lower_cp, ascii_lower.
    destruct ((65 <=? c)%N && (c <=? 90)%N); [reflexivity|].
    repeat match goal with
    | |- context [N.leb ?a c] => destruct (N.leb_spec a c); try lia
    end; reflexivity.
  - reflexivity.
Defined.

(* ================================================================== *)
(** ** Reference objects *)
(* ================================================================== *)

(** The adult patient of [main]. *)
Definition ivan : Patient.t :=
  Patient.Adult
    (Patient.Fields (VStr (u "A123")) (VStr (u "Иван Петров")) (VInt 35)
       (VStr (u "м")) (VStr (u "Аллергия на пыльцу")))
    (VStr (u "Программист")).

(** The same patient with no history recorded ([None]). *)
Definition ivan_without_history : Patient.t :=
  Patient.Adult
    (Patient.Fields (VStr (u "A123")) (VStr (u "Иван Петров")) (VInt 35)
       (VStr (u "м")) VNone)
    (VStr (u "Программист")).

(** The senior patient of [main]. *)
Definition petr : Patient.t :=
  Patient.Senior
    (Patient.Fields (VStr (u "S789")) (VStr (u "Петр Иванов")) (VInt 70)
       (VStr (u "м")) (VStr (u "Гипертония")))
    (VStr (u "Диабет")).

Definition doctor_ivanov : DoctorInfo.t :=
  DoctorInfo.Make (VStr (u "Доктор Иванов")) (VStr (u "Терапевт"))
    (VStr (u "ivanov@example.com")).

(** An appointment as [main] creates it, on a fixed date, for a given
    patient and with two services added. *)
Definition appointment_for (p : Patient.t) : Appointment.t :=
  Appointment.Make AppointmentWithLoggingAndNotification (VStr (u "AP101")) p
    (VStr (u "Доктор Иванов")) (VStr (u "2023-10-15")) (VStr (u "Грипп"))
    (VStr (u "Парацетамол")) doctor_ivanov
    [ Service.Make (VStr (u "Осмотр")) (VInt 1500);
      Service.Make (VStr (u "Анализ крови")) (VInt 700) ].

(** The chain [main] builds: doctor, then department head, then chief. *)
Definition main_chain : Handler :=
  Doctor (Some (DepartmentHead (Some (ChiefPhysician None)))).

(** What serialization makes of a history: a falsy one ([None], an empty
    list, [0], ...) is written as the empty string. *)
Definition stored_history (p : Patient.t) : Patient.t :=
  let f := Patient.base p in
  Patient.with_base p
    (Patient.Fields (Patient.patient_id f) (Patient.name f) (Patient.age f)
       (Patient.gender f)
       (if truthy (Patient.medical_history f) then Patient.medical_history f
        else VStr [])).

Definition with_age (p : Patient.t) (a : pyval) : Patient.t :=
  let f := Patient.base p in
  Patient.with_base p
    (Patient.Fields (Patient.patient_id f) (Patient.name f) a
       (Patient.gender f) (Patient.medical_history f)).

Definition with_diagnosis (a : Appointment.t) (d : pyval) : Appointment.t :=
  Appointment.Make (Appointment.class_of a) (Appointment.appointment_id a)
    (Appointment.patient a) (Appointment.doctor a) (Appointment.date a) d
    (Appointment.prescription a) (Appointment.doctor_info a)
    (Appointment.services a).

(** The record [to_dict] writes for one service. *)
Definition service_record (s : Service.t) : pyval :=
  VDict [ (u "name", Service.name s); (u "price", Service.price s) ].

(** What [from_dict] builds before it replays the services. *)
Definition restored_blank (a : Appointment.t) : Appointment.t :=
  Appointment.__init__ (Appointment.appointment_id a)
    (stored_history (Appointment.patient a)) (Appointment.doctor a)
    (Appointment.date a) (Appointment.diagnosis a) (Appointment.prescription a)
    (Appointment.doctor_info a).

(** The value a record holds under a key, or a default. *)
Definition record_get (d : list (pystr * pyval)) (k : pystr) (default : pyval) : pyval :=
  match dict_get k d with Some x => x | None => default end.

(* ================================================================== *)
(** ** The rest of the patient and appointment methods *)
(* ================================================================== *)

(** [a + b]: numbers add, two [str] or two [list] concatenate, anything
    else raises [TypeError]. *)
Definition py_add (a b : pyval) : result pyval :=
  match a, b with
  | VBool x, VBool y => inr (VInt (Z.b2z x + Z.b2z y))
  | VBool x, VInt y => inr (VInt (Z.b2z x + y))
  | VInt x, VBool y => inr (VInt (x + Z.b2z y))
  | VInt x, VInt y => inr (VInt (x + y))
  | VStr x, VStr y => inr (VStr (x ++ y))
  | VList x, VList y => inr (VList (x ++ y))
  | _, _ => inl TypeError
  end.

(** [Appointment.calculate_total]: [total = 0], then [total += s.price]
    for each service in order. *)
Definition calculate_total (self : Appointment.t) : result pyval :=
  fold_left (fun total s => rbind total (fun t => py_add t (Service.price s)))
    (Appointment.services self) (inr (VInt 0)).

Section Rendering.
Context `{PyRuntime}.

(** [get_medical_history], as each class defines it.  The three variants
    append the history with [+]; [PatientWithNotifications] formats it. *)
Definition get_medical_history (self : Patient.t) : result pyval :=
  let f := Patient.base self in
  match self with
  | Patient.Adult _ occupation =>
      py_add (VStr (u "Взрослый пациент [" ++ py_str (Patient.name f)
                    ++ u "], Род занятий: " ++ py_str occupation ++ [10%N; 32%N]))
             (Patient.medical_history f)
  | Patient.Child _ guardian =>
      py_add (VStr (u "Ребенок [" ++ py_str (Patient.name f)
                    ++ u "], Опекун: " ++ py_str guardian ++ [10%N]))
             (Patient.medical_history f)
  | Patient.Senior _ chronic_conditions =>
      py_add (VStr (u "Пожилой пациент [" ++ py_str (Patient.name f)
                    ++ u "], хронические заболевания: "
                    ++ py_str chronic_conditions ++ [10%N]))
             (Patient.medical_history f)
  | Patient.WithNotifications _ =>
      inr (VStr (u "История болезни пациента: " ++ py_str (Patient.name f)
                 ++ [10%N] ++ py_str (Patient.medical_history f)))
  end.
End Rendering.

(* ================================================================== *)
(** ** The template method for booking *)
(* ================================================================== *)

Section Template.
Context {O : Type}.

(** [str(e)] of a caught exception: the interpreter's wording. *)
Variable exn_text : exn -> pystr.

Local Open Scope prog_scope.

(** [AppointmentProcess.schedule_appointment] over the three steps a
    subclass supplies: whatever a step raises is caught and reported. *)
Definition schedule_appointment (check_doctor_availability make_appointment
    confirm_appointment : M O unit) : M O unit :=
  fun w =>
    match (check_doctor_availability ;; make_appointment ;; confirm_appointment) w with
    | (inr tt, w') => (inr tt, w')
    | (inl e, w') => print (u "Ошибка при записи на прием: " ++ exn_text e) w'
    end.

(** [OnlineAppointmentProcess] and [OfflineAppointmentProcess]: the
    template with their three steps. *)
Definition OnlineAppointmentProcess : M O unit :=
  schedule_appointment
    (print (u "Проверка доступности врача онлайн..."))
    (print (u "Запись на прием через онлайн-систему..."))
    (print (u "Подтверждение записи через SMS или email...")).

Definition OfflineAppointmentProcess : M O unit :=
  schedule_appointment
    (print (u "Проверка доступности врача офлайн..."))
    (print (u "Запись на прием через регистратуру..."))
    (print (u "Подтверждение записи через телефонный звонок...")).

Local Close Scope prog_scope.
End Template.

(* ================================================================== *)
(** ** The clinic *)
(* ================================================================== *)

(** What a clinic call can raise: its own two exceptions, or one that
    escapes from the patient code it runs. *)
Inductive clinic_exn : Type :=
  | Raised (e : exn)
  | InvalidPatientError (message : pystr)
  | AppointmentNotFoundError (message : pystr).

Inductive level : Type := INFO | ERROR.


Module Clinic.

(** [self.patients], the lines printed and the records handed to the
    logger. *)
Record state : Type := State {
  patients : list Patient.t;
  printed : list pystr;
  logged : list (level * pystr)
}.

(** [Clinic.__init__] *)
Definition __init__ : state := State [] [] [].

Definition get_all_patients (s : state) : list Patient.t := patients s.

(** The loop of [remove_patient]: the position and the patient of the
    first entry whose [patient_id] equals the argument. *)
Fixpoint find_patient (patient_id : pyval) (ps : list Patient.t)
    : option (nat * Patient.t) :=
  match ps with
  | [] => None
  | p :: rest =>
      if py_eq (Patient.patient_id (Patient.base p)) patient_id then Some (O, p)
      else match find_patient patient_id rest with
           | Some (i, q) => Some (S i, q)
           | None => None
           end
  end.

(** [ps.remove(target)], [target] being the object at position [i]: the
    first entry that is that object, or that [==] finds equal to it, is
    taken out. *)
Fixpoint list_remove (target : Patient.t) (i : nat) (ps : list Patient.t)
    : result (list Patient.t) :=
  match ps with
  | [] => inl (ValueError (u "list.remove(x): x not in list"))
  | e :: rest =>
      match i with
      | O => inr rest
      | S i' =>
          rbind (Patient.__eq__ e target) (fun equal =>
            if equal : bool then inr rest
            else rbind (list_remove target i' rest) (fun rest' => inr (e :: rest')))
      end
  end.

Section WithRuntime.
Context `{PyRuntime}.


Definition remove_patient (patient_id : pyval) (s : state)
    : (clinic_exn + unit) * state :=
  match find_patient patient_id (patients s) with
  | Some (i, patient) =>
      match list_remove patient i (patients s) with
      | inl e => (inl (Raised e), s)
      | inr remaining =>
          let line := u "Пациент с ID " ++ py_str patient_id
                      ++ u " удален из клиники." in
          (inr tt, State remaining (printed s ++ [line]) (logged s ++ [(INFO, line)]))
      end
  | None =>
      (inl (AppointmentNotFoundError (u "Пациент не найден.")),
       State (patients s) (printed s)
         (logged s ++ [(ERROR, u "Ошибка: Пациент не найден.")]))
  end.

(** The comprehension of [search_by_name]. *)
Fixpoint search_by_name (name : pyval) (ps : list Patient.t)
    : result (list Patient.t) :=
  match ps with
  | [] => inr []
  | patient :: rest =>
      rbind (py_lower name) (fun query =>
      rbind (py_lower (Patient.name (Patient.base patient))) (fun text =>
      rbind (search_by_name name rest) (fun found =>
        inr (if contains query text then patient :: found else found))))
  end.
End WithRuntime.
End Clinic.

(** Whether a chain holds a chief physician. *)
Fixpoint has_chief (h : Handler) : bool :=
  match h with
  | Doctor (Some next) | DepartmentHead (Some next) => has_chief next
  | Doctor None | DepartmentHead None => false
  | ChiefPhysician _ => true
  end.

(** The line [change_diagnosis] prints before it calls the chain. *)
Definition request_line `{PyRuntime} (new_diagnosis : pyval) : pystr :=
  u "Запрос на изменение диагноза на '" ++ py_str new_diagnosis ++ u "'...".

(** The line [remove_patient] prints and logs. *)
Definition removal_line `{PyRuntime} (patient_id : pyval) : pystr :=
  u "Пациент с ID " ++ py_str patient_id ++ u " удален из клиники.".

(** What the comparison methods read of a patient, when it is there: an
    integer age and the length of the history. *)
Definition sort_key (p : Patient.t) : option (Z * nat) :=
  match Patient.age (Patient.base p),
        py_len (Patient.medical_history (Patient.base p)) with
  | VInt x, inr n => Some (x, n)
  | _, _ => None
  end.

(** The order of two keys: by age, then by history length. *)
Definition key_lt (k1 k2 : Z * nat) : Prop :=
  (fst k1 < fst k2)%Z \/ (fst k1 = fst k2 /\ (snd k1 < snd k2)%nat).

(** Whether a value is one of the numbers among the values modelled here,
    an [int] or a [bool]. *)
Definition is_number (v : pyval) : bool :=
  match v with
  | VInt _ | VBool _ => true
  | _ => false
  end.

Definition has_id (patient_id : pyval) (p : Patient.t) : bool :=
  py_eq (Patient.patient_id (Patient.base p)) patient_id.

(** The name of a patient contains the query, both in lowercase. *)
Definition name_matches `{PyRuntime} (query : pystr) (p : Patient.t) : bool :=
  match Patient.name (Patient.base p) with
  | VStr n => contains (lower query) (lower n)
  | _ => false
  end.

Definition with_gender (p : Patient.t) (g : pyval) : Patient.t :=
  let f := Patient.base p in
  Patient.with_base p
    (Patient.Fields (Patient.patient_id f) (Patient.name f) (Patient.age f) g
       (Patient.medical_history f)).

(** The sum of a list of integers. *)
Definition total_of (prices : list Z) : Z := fold_right Z.add 0%Z prices.

(** Whether the name of a patient is a string. *)
Definition has_text_name (p : Patient.t) : bool :=
  match Patient.name (Patient.base p) with
  | VStr _ => true
  | _ => false
  end.

(** The line the template prints for a caught exception. *)
Definition booking_error (exn_text : exn -> pystr) (e : exn) : pystr :=
  u "Ошибка при записи на прием: " ++ exn_text e.

(** A second adult patient, of the same age and history length as [ivan]. *)
Definition oleg : Patient.t :=
  Patient.Adult
    (Patient.Fields (VStr (u "B777")) (VStr (u "Олег Смирнов")) (VInt 35)
       (VStr (u "ж")) (VStr (u "Перелом левой руки")))
    (VStr (u "Водитель")).

(* ================================================================== *)
(** ** Basic facts *)
(* ================================================================== *)

Example u_decodes_cyrillic : u "ж" = [1078%N].
Proof. reflexivity. Qed.

Example lower_cyrillic :
  lower (u "Пересмотр ЛЕЧЕНИЯ") = u "пересмотр лечения".
Proof. reflexivity. Qed.

Example contains_marker :
  contains treatment_revision (lower (u "Нужен ПЕРЕСМОТР лечения!")) = true /\
  contains minor_change (lower (u "Нужен ПЕРЕСМОТР лечения!")) = false.
Proof. split; reflexivity. Qed.

Lemma str_eqb_refl (s : pystr) : str_eqb s s = true.
Proof.
  induction s as [|c s IH]; simpl; [reflexivity|].
  now rewrite N.eqb_refl, IH.
Qed.

Lemma str_eqb_eq (a b : pystr) : str_eqb a b = true <-> a = b.
Proof.
  split; [|intros ->; apply str_eqb_refl].
  revert b; induction a as [|x a IH]; intros [|y b]; simpl; try discriminate.
  - reflexivity.
  - intros Hxy. apply andb_true_iff in Hxy. destruct Hxy as [Hx Ha].
    apply N.eqb_eq in Hx. now rewrite Hx, (IH b Ha).
Qed.

Lemma str_eqb_neq (a b : pystr) : str_eqb a b = false <-> a <> b.
Proof.
  rewrite <- str_eqb_eq. destruct (str_eqb a b); split; congruence.
Qed.

Section RegistryFacts.
Context `{PyRuntime}.

Lemma lower_class_name (c : PatientClass) :
  lower (class_name c) = map ascii_lower (class_name c).
Proof. destruct c; apply lower_ascii; reflexivity. Qed.

(** The registry holds the four concrete classes under their lowercased
    names, in the order of their class statements; the base class is not
    in it. *)
Lemma registry_contents :
  PatientMeta._registry =
    [ (u "adultpatient", AdultPatient);
      (u "childpatient", ChildPatient);
      (u "seniorpatient", SeniorPatient);
      (u "patientwithnotifications", PatientWithNotifications) ].
Proof.
  unfold PatientMeta._registry, class_definitions, PatientMeta.__new__.
  cbn [fold_left]. rewrite !lower_class_name. reflexivity.
Qed.
End RegistryFacts.

Section PatientSerialization.
Context `{PyRuntime}.

Lemma lower_lowered_class_name (c : PatientClass) :
  lower (lower (class_name c)) = lower (class_name c).
Proof.
  rewrite lower_class_name.
  destruct c; rewrite lower_ascii by reflexivity; reflexivity.
Qed.

(** A concrete class is found under its own lowercased name. *)
Lemma get_patient_class_of_name (c : PatientClass) :
  c <> Patient ->
  PatientMeta.get_patient_class (VStr (lower (class_name c))) = inr (Some c).
Proof.
  intros Hc. unfold PatientMeta.get_patient_class, py_lower, rbind.
  rewrite lower_lowered_class_name, registry_contents, lower_class_name.
  destruct c; try reflexivity. contradiction.
Qed.

(** [from_dict] on a record whose [type] resolves to class [c]. *)
Lemma from_dict_resolved (d : list (pystr * pyval)) (ty : pyval) (c : PatientClass) :
  dict_get (u "type") d = Some ty ->
  PatientMeta.get_patient_class ty = inr (Some c) ->
  Patient.from_dict (VDict d) =
    Patient.new c []
      ([ (u "patient_id", record_get d (u "patient_id") VNone);
         (u "name", record_get d (u "name") VNone);
         (u "age", record_get d (u "age") VNone);
         (u "gender", record_get d (u "gender") VNone);
         (u "medical_history", record_get d (u "medical_history") (VStr [])) ] ++
       match c with
       | AdultPatient => [(u "occupation", record_get d (u "occupation") (VStr []))]
       | ChildPatient => [(u "guardian", record_get d (u "guardian") (VStr []))]
       | SeniorPatient =>
           [(u "chronic_conditions", record_get d (u "chronic_conditions") (VStr []))]
       | _ => []
       end).
Proof.
  intros Hty Hc. unfold Patient.from_dict, py_get, rbind.
  rewrite Hty, Hc. destruct c; reflexivity.
Qed.

Lemma from_dict_to_dict (p : Patient.t) :
  Patient.from_dict (Patient.to_dict p) = inr (stored_history p).
Proof.
  destruct p as [[i n a g m] x | [i n a g m] x | [i n a g m] x | [i n a g m]];
    unfold Patient.to_dict;
    match goal with
    | |- context [Patient.class_of ?p] =>
        erewrite (from_dict_resolved _ _ (Patient.class_of p));
          [ reflexivity | reflexivity
          | apply get_patient_class_of_name; discriminate ]
    end.
Qed.
End PatientSerialization.

(** A truthy history, and the empty string, are stored as they are. *)
Lemma stored_history_kept (p : Patient.t) :
  truthy (Patient.medical_history (Patient.base p)) = true \/
  Patient.medical_history (Patient.base p) = VStr [] ->
  stored_history p = p.
Proof.
  unfold stored_history. intros [Hm | Hm]; rewrite Hm.
  - destruct p as [[] ? | [] ? | [] ? | []]; reflexivity.
  - destruct p as [[] ? | [] ? | [] ? | []]; simpl in *; subst; reflexivity.
Qed.

(** C1, as amended.  For every patient [p] of any class, deserializing the
    record that serialization produces returns a patient of the same class
    whose [patient_id], [name], [age], [gender] and class-specific field
    ([occupation], [guardian] or [chronic_conditions]) are those of [p],
    and whose [medical_history] is that of [p] when it is truthy and the
    empty string otherwise; so when the history of [p] is truthy or already
    the empty string, the result is [p] field for field. *)
Theorem patient_roundtrip `{PyRuntime} (p : Patient.t) :
  exists q : Patient.t,
    Patient.from_dict (Patient.to_dict p) = inr q /\
    Patient.class_of q = Patient.class_of p /\
    Patient.patient_id (Patient.base q) = Patient.patient_id (Patient.base p) /\
    Patient.name (Patient.base q) = Patient.name (Patient.base p) /\
    Patient.age (Patient.base q) = Patient.age (Patient.base p) /\
    Patient.gender (Patient.base q) = Patient.gender (Patient.base p) /\
    Patient.occupation q = Patient.occupation p /\
    Patient.guardian q = Patient.guardian p /\
    Patient.chronic_conditions q = Patient.chronic_conditions p /\
    Patient.medical_history (Patient.base q) =
      (if truthy (Patient.medical_history (Patient.base p))
       then Patient.medical_history (Patient.base p) else VStr []) /\
    (truthy (Patient.medical_history (Patient.base p)) = true \/
     Patient.medical_history (Patient.base p) = VStr [] -> q = p).
Proof.
  exists (stored_history p). split; [apply from_dict_to_dict|].
  repeat (split; [destruct p; reflexivity|]).
  apply stored_history_kept.
Qed.

Lemma patient_roundtrip_ivan :
  Patient.from_dict (Patient.to_dict ivan) = inr ivan.
Proof.
  destruct (patient_roundtrip ivan)
    as (q & Hq & _ & _ & _ & _ & _ & _ & _ & _ & _ & Hsame).
  rewrite Hq. f_equal. apply Hsame. left. reflexivity.
Defined.

(** C1 as stated fails: a patient whose history is [None] comes back with
    the empty string as history. *)
Lemma patient_roundtrip_loses_none_history :
  Patient.class_of ivan_without_history = AdultPatient /\
  Patient.from_dict (Patient.to_dict ivan_without_history) <> inr ivan_without_history /\
  exists q,
    Patient.from_dict (Patient.to_dict ivan_without_history) = inr q /\
    Patient.medical_history (Patient.base ivan_without_history) = VNone /\
    Patient.medical_history (Patient.base q) = VStr [] /\
    Patient.__eq__ q ivan_without_history = inl TypeError.
Proof.
  split; [reflexivity|]. split.
  - vm_compute. discriminate.
  - eexists. split; [vm_compute; reflexivity|]. repeat split; reflexivity.
Qed.

Section AppointmentSerialization.
Context `{PyRuntime}.

Lemma add_services_records (svs : list Service.t) (a : Appointment.t) :
  Appointment.add_services a (map service_record svs) =
    inr (fold_left Appointment.add_service svs a).
Proof.
  revert a; induction svs as [|[n p] svs IH]; intros a; [reflexivity|].
  cbn [map fold_left Appointment.add_services]. exact (IH _).
Qed.

Lemma fold_add_service (svs : list Service.t) (a : Appointment.t) :
  fold_left Appointment.add_service svs a =
    Appointment.Make (Appointment.class_of a) (Appointment.appointment_id a)
      (Appointment.patient a) (Appointment.doctor a) (Appointment.date a)
      (Appointment.diagnosis a) (Appointment.prescription a)
      (Appointment.doctor_info a) (Appointment.services a ++ svs).
Proof.
  revert a; induction svs as [|s svs IH]; intros a.
  - simpl. rewrite app_nil_r. destruct a; reflexivity.
  - cbn [fold_left]. rewrite IH. unfold Appointment.add_service.
    cbn. now rewrite <- app_assoc.
Qed.

Lemma appointment_from_dict_to_dict (a : Appointment.t) :
  Appointment.from_dict (Appointment.to_dict a) =
    inr (fold_left Appointment.add_service (Appointment.services a)
           (restored_blank a)).
Proof.
  unfold Appointment.from_dict, Appointment.to_dict.
  cbn -[Patient.from_dict Patient.to_dict Appointment.add_services map].
  rewrite from_dict_to_dict.
  cbn -[Patient.from_dict Patient.to_dict Appointment.add_services map].
  change (map _ (Appointment.services a))
    with (map service_record (Appointment.services a)).
  rewrite add_services_records. unfold restored_blank.
  destruct a as [? ? ? ? ? ? ? [] ?]; reflexivity.
Qed.
End AppointmentSerialization.

Section ChainFacts.
Context `{PyRuntime}.

Lemma py_eq_str (a b : pystr) : py_eq (VStr a) (VStr b) = str_eqb a b.
Proof. reflexivity. Qed.

Lemma role_check (role : pystr) :
  existsb (fun r => py_eq (VStr role) (VStr r)) required_roles = true <->
  In role required_roles.
Proof.
  rewrite existsb_exists. split.
  - intros (r & Hr & Heq). apply str_eqb_eq in Heq. now subst.
  - intros Hr. exists role. split; [exact Hr | apply str_eqb_refl].
Qed.

(** The department head's own rule. *)
Lemma department_head_approves (s : option Handler) (text : pystr)
    (w : world Appointment.t) :
  contains treatment_revision (lower text) = true ->
  handle_request (DepartmentHead s) (VStr text) w =
    (inr tt, World (with_diagnosis (obj w) (VStr text)) (stdout w ++ [head_approved])).
Proof.
  intros Hrev.
  cbn [handle_request bind lift py_lower]. rewrite Hrev. reflexivity.
Qed.

(** The doctor's rule when the text lacks the doctor's marker. *)
Lemma doctor_forwards (next : Handler) (text : pystr) (w : world Appointment.t) :
  contains minor_change (lower text) = false ->
  handle_request (Doctor (Some next)) (VStr text) w =
    handle_request next (VStr text) (World (obj w) (stdout w ++ [doctor_forwarded])).
Proof.
  intros Hminor.
  cbn [handle_request bind lift py_lower]. rewrite Hminor. reflexivity.
Qed.

(** A handler that is called with a text always answers, and leaves at
    least one line on the output. *)
Fixpoint handle_request_prints (h : Handler) (text : pystr)
    (w : world Appointment.t) {struct h} :
  exists (lines : list pystr) (a : Appointment.t),
    lines <> [] /\
    handle_request h (VStr text) w = (inr tt, World a (stdout w ++ lines)).
Proof.
  destruct h as [[next|] | [next|] | s];
    cbn [handle_request bind lift py_lower].
  - destruct (contains minor_change (lower text)).
    + exists [doctor_approved]. eexists. split; [discriminate | reflexivity].
    + destruct (handle_request_prints next text
                  (World (obj w) (stdout w ++ [doctor_forwarded])))
        as (lines & a & _ & Hnext).
      exists (doctor_forwarded :: lines), a. split; [discriminate|].
      cbn [print bind obj stdout]. rewrite Hnext.
      cbn [stdout]. now rewrite <- app_assoc.
  - destruct (contains minor_change (lower text)).
    + exists [doctor_approved]. eexists. split; [discriminate | reflexivity].
    + exists [not_approved]. eexists. split; [discriminate | reflexivity].
  - destruct (contains treatment_revision (lower text)).
    + exists [head_approved]. eexists. split; [discriminate | reflexivity].
    + destruct (handle_request_prints next text
                  (World (obj w) (stdout w ++ [head_forwarded])))
        as (lines & a & _ & Hnext).
      exists (head_forwarded :: lines), a. split; [discriminate|].
      cbn [print bind obj stdout]. rewrite Hnext.
      cbn [stdout]. now rewrite <- app_assoc.
  - destruct (contains treatment_revision (lower text)).
    + exists [head_approved]. eexists. split; [discriminate | reflexivity].
    + exists [not_approved]. eexists. split; [discriminate | reflexivity].
  - exists [chief_approved]. eexists. split; [discriminate | reflexivity].
Qed.
End ChainFacts.

(** C2.  On every chain doctor, department head, chief physician and every
    appointment, a diagnosis text whose lowercase form contains the
    department head's marker and not the doctor's, handed to the doctor, is
    forwarded once and approved by the department head: the doctor's
    approval line is not printed, the chief is not reached, and the
    appointment's diagnosis becomes exactly the submitted text.  The same
    holds through [change_diagnosis] for an authorized requester. *)
Theorem revision_approved_by_department_head `{PyRuntime}
    (chief_successor : option Handler) (a : Appointment.t) (out : list pystr)
    (text : pystr) :
  contains treatment_revision (lower text) = true ->
  contains minor_change (lower text) = false ->
  let chain :=
    Doctor (Some (DepartmentHead (Some (ChiefPhysician chief_successor)))) in
  handle_request chain (VStr text) (World a out) =
    (inr tt,
     World (with_diagnosis a (VStr text)) (out ++ [doctor_forwarded; head_approved]))
  /\
  change_diagnosis (VStr (u "Doctor")) (VStr text, chain) (World a out) =
    (inr tt,
     World (with_diagnosis a (VStr text))
       (out ++ [u "Запрос на изменение диагноза на '" ++ text ++ u "'...";
                doctor_forwarded; head_approved])).
Proof.
  intros Hrev Hminor chain. subst chain. split.
  - rewrite doctor_forwards by exact Hminor.
    rewrite department_head_approves by exact Hrev.
    cbn [obj stdout]. now rewrite <- app_assoc.
  - unfold change_diagnosis, check_permissions.
    replace (existsb _ required_roles) with true by reflexivity.
    cbn [negb bind print obj stdout]. rewrite py_str_str.
    rewrite doctor_forwards by exact Hminor.
    rewrite department_head_approves by exact Hrev.
    cbn [obj stdout]. now rewrite <- !app_assoc.
Qed.

Lemma revision_approved_in_main_chain :
  handle_request main_chain (VStr (u "Пересмотр лечения"))
    (World (appointment_for ivan) []) =
    (inr tt,
     World (with_diagnosis (appointment_for ivan) (VStr (u "Пересмотр лечения")))
       [doctor_forwarded; head_approved]).
Proof.
  refine (proj1 (revision_approved_by_department_head None (appointment_for ivan) []
                   (u "Пересмотр лечения") _ _)); vm_compute; reflexivity.
Defined.

(** C3.  For every role string outside ["Doctor"], ["Department_head"],
    ["Chief_physician"] (compared exactly, case included), every
    appointment, every new diagnosis and every chain, [change_diagnosis]
    raises [PermissionDeniedError] and leaves the world as it was: the
    diagnosis is unchanged and no handler has printed a line.  The wrapper
    does so whatever function it wraps, so the chain is never called. *)
Theorem unrecognized_role_denied `{PyRuntime} (role : pystr)
    (new_diagnosis : pyval) (handler : Handler) (w : world Appointment.t) :
  ~ In role required_roles ->
  let denied :=
    PermissionDeniedError
      (u "Требуется одна из ролей: Doctor, Department_head, Chief_physician") in
  change_diagnosis (VStr role) (new_diagnosis, handler) w = (inl denied, w) /\
  Appointment.diagnosis (obj (snd (change_diagnosis (VStr role) (new_diagnosis, handler) w)))
    = Appointment.diagnosis (obj w) /\
  forall (O Args : Type) (func : Args -> M O unit) (args : Args) (w' : world O),
    check_permissions required_roles func (VStr role) args w' = (inl denied, w').
Proof.
  intros Hrole denied.
  assert (Hcheck : existsb (fun r => py_eq (VStr role) (VStr r)) required_roles = false).
  { destruct (existsb _ required_roles) eqn:E; [|reflexivity].
    apply role_check in E. contradiction. }
  assert (Hany : forall (O Args : Type) (func : Args -> M O unit) (args : Args)
                   (w' : world O),
             check_permissions required_roles func (VStr role) args w' = (inl denied, w')).
  { intros. unfold check_permissions. rewrite Hcheck. reflexivity. }
  split; [apply Hany|]. split; [|exact Hany].
  unfold change_diagnosis. now rewrite Hany.
Qed.

Lemma lowercase_doctor_role_denied :
  ~ In (u "doctor") required_roles /\
  change_diagnosis (VStr (u "doctor")) (VStr (u "Незначительное изменение"), main_chain)
    (World (appointment_for ivan) []) =
    (inl (PermissionDeniedError
            (u "Требуется одна из ролей: Doctor, Department_head, Chief_physician")),
     World (appointment_for ivan) []).
Proof.
  assert (Hrole : ~ In (u "doctor") required_roles).
  { intros Hin. apply role_check in Hin. vm_compute in Hin. discriminate Hin. }
  split; [exact Hrole|].
  exact (proj1 (unrecognized_role_denied (u "doctor")
                  (VStr (u "Незначительное изменение")) main_chain
                  (World (appointment_for ivan) []) Hrole)).
Defined.

(** C4.  For two patients of any classes whose ages are the integers [x]
    and [y] and whose histories have lengths [n] and [m]: [a == b] holds
    iff [x = y] and [n = m]; [a < b] holds iff [x < y], or [x = y] and
    [n < m]; [a > b] holds iff [x > y], or [x = y] and [n > m].  Nothing
    else of the two patients is consulted. *)
Theorem patient_comparison (a b : Patient.t) (x y : Z) (n m : nat) :
  Patient.age (Patient.base a) = VInt x ->
  Patient.age (Patient.base b) = VInt y ->
  py_len (Patient.medical_history (Patient.base a)) = inr n ->
  py_len (Patient.medical_history (Patient.base b)) = inr m ->
  (exists r, Patient.__eq__ a b = inr r /\
     (r = true <-> x = y /\ n = m)) /\
  (exists r, Patient.__lt__ a b = inr r /\
     (r = true <-> (x < y)%Z \/ (x = y /\ (n < m)%nat))) /\
  (exists r, Patient.__gt__ a b = inr r /\
     (r = true <-> (x > y)%Z \/ (x = y /\ (n > m)%nat))).
Proof.
  intros Ha Hb Hn Hm.
  unfold Patient.__eq__, Patient.__lt__, Patient.__gt__, py_gt.
  rewrite Ha, Hb, Hn, Hm. cbn [py_lt py_eq rbind].
  destruct (Z.eqb_spec x y) as [Exy | Nxy];
    destruct (Z.ltb_spec x y) as [Lxy | Gxy];
    destruct (Z.ltb_spec y x) as [Lyx | Gyx]; try lia;
    (split; [|split]); eexists; (split; [reflexivity|]);
    rewrite ?Nat.eqb_eq, ?Nat.ltb_lt; split; intros; try discriminate;
    try tauto; try lia.
Qed.

Lemma patient_comparison_ivan_petr :
  (exists r, Patient.__eq__ ivan petr = inr r /\
     (r = true <-> 35%Z = 70%Z /\ 18 = 10)) /\
  (exists r, Patient.__lt__ ivan petr = inr r /\
     (r = true <-> (35 < 70)%Z \/ (35%Z = 70%Z /\ (18 < 10)%nat))) /\
  (exists r, Patient.__gt__ ivan petr = inr r /\
     (r = true <-> (35 > 70)%Z \/ (35%Z = 70%Z /\ (18 > 10)%nat))).
Proof.
  apply (patient_comparison ivan petr 35 70 18 10); reflexivity.
Defined.

(** C5.  For every patient and every integer [a], the age setter stores [a]
    when [1 < a < 110] (so 2 up to 109): the age of the patient is then [a],
    nothing is printed, and its class and every other field are as before.
    Otherwise it leaves the patient as it was, age included.  In both cases
    it returns normally (in the second it prints a message). *)
Theorem age_setter_range (p : Patient.t) (a : Z) (out : list pystr) :
  ((1 < a < 110)%Z ->
   exists q : Patient.t,
     Patient.set_age (VInt a) (World p out) = (inr tt, World q out) /\
     Patient.age (Patient.base q) = VInt a /\
     Patient.class_of q = Patient.class_of p /\
     Patient.patient_id (Patient.base q) = Patient.patient_id (Patient.base p) /\
     Patient.name (Patient.base q) = Patient.name (Patient.base p) /\
     Patient.gender (Patient.base q) = Patient.gender (Patient.base p) /\
     Patient.medical_history (Patient.base q) =
       Patient.medical_history (Patient.base p) /\
     Patient.occupation q = Patient.occupation p /\
     Patient.guardian q = Patient.guardian p /\
     Patient.chronic_conditions q = Patient.chronic_conditions p /\
     q = with_age p (VInt a)) /\
  (~ (1 < a < 110)%Z ->
   Patient.set_age (VInt a) (World p out) =
     (inr tt, World p (out ++ [u "Недопустимый возраст"]))).
Proof.
  unfold Patient.set_age, bind, lift, ret, get_obj, put_obj, print.
  cbn [py_lt obj stdout].
  destruct (Z.ltb_spec 1 a) as [L1 | G1];
    [destruct (Z.ltb_spec a 110) as [L2 | G2]|];
    (split; intros Hr; [try lia | try (exfalso; apply Hr; lia)]);
    try reflexivity.
  exists (with_age p (VInt a)). split; [reflexivity|].
  repeat (split; [destruct p; reflexivity|]). reflexivity.
Qed.

Lemma age_setter_boundaries :
  (exists q : Patient.t,
     Patient.set_age (VInt 2) (World ivan []) = (inr tt, World q []) /\
     Patient.age (Patient.base q) = VInt 2) /\
  (exists q : Patient.t,
     Patient.set_age (VInt 109) (World ivan []) = (inr tt, World q []) /\
     Patient.age (Patient.base q) = VInt 109) /\
  Patient.set_age (VInt 1) (World ivan []) =
    (inr tt, World ivan [u "Недопустимый возраст"]) /\
  Patient.set_age (VInt 110) (World ivan []) =
    (inr tt, World ivan [u "Недопустимый возраст"]).
Proof.
  refine (conj _ (conj _ (conj _ _))).
  - destruct (proj1 (age_setter_range ivan 2 []) ltac:(lia)) as (q & Hq & Ha & _).
    exists q. split; [exact Hq | exact Ha].
  - destruct (proj1 (age_setter_range ivan 109 []) ltac:(lia)) as (q & Hq & Ha & _).
    exists q. split; [exact Hq | exact Ha].
  - apply (proj2 (age_setter_range ivan 1 [])); lia.
  - apply (proj2 (age_setter_range ivan 110 [])); lia.
Defined.

Section FactoryFacts.
Context `{PyRuntime}.

Lemma get_patient_class_str (t : pystr) :
  PatientMeta.get_patient_class (VStr t) =
    inr (dict_get (lower t) PatientMeta._registry).
Proof. reflexivity. Qed.

(** The factory on a [str] tag: the class registered under the lowercase
    form of the tag is called, and a tag without one is reported as given. *)
Lemma create_patient_str (t : pystr) (args : list pyval)
    (kwargs : list (pystr * pyval)) :
  PatientFactory.create_patient (VStr t) args kwargs =
    match dict_get (lower t) PatientMeta._registry with
    | Some c => Patient.new c args kwargs
    | None => inl (ValueError (u "Неизвестный тип пациента: " ++ t))
    end.
Proof.
  unfold PatientFactory.create_patient. rewrite get_patient_class_str.
  cbn [rbind]. rewrite py_str_str. reflexivity.
Qed.

Lemma lookup_ascii_tag (t : pystr) :
  forallb is_ascii t = true ->
  dict_get (lower t) PatientMeta._registry =
    dict_get (map ascii_lower t)
      [ (u "adultpatient", AdultPatient);
        (u "childpatient", ChildPatient);
        (u "seniorpatient", SeniorPatient);
        (u "patientwithnotifications", PatientWithNotifications) ].
Proof. intros Ht. now rewrite registry_contents, lower_ascii. Qed.

(** A record without a [type] key: [data.get("type")] is [None], and
    [None.lower()] raises before the unknown-type check is reached. *)
Lemma from_dict_without_type (d : list (pystr * pyval)) :
  dict_get (u "type") d = None ->
  Patient.from_dict (VDict d) = inl AttributeError.
Proof.
  intros Hty. unfold Patient.from_dict, py_get, rbind. rewrite Hty. reflexivity.
Qed.

(** A record whose [type] is a string no class is registered under. *)
Lemma from_dict_unregistered (d : list (pystr * pyval)) (t : pystr) :
  dict_get (u "type") d = Some (VStr t) ->
  dict_get (lower t) PatientMeta._registry = None ->
  Patient.from_dict (VDict d) =
    inl (ValueError (u "Неизвестный тип пациента: " ++ t)).
Proof.
  intros Hty Hreg. unfold Patient.from_dict, py_get, rbind.
  rewrite Hty, get_patient_class_str, Hreg, py_str_str. reflexivity.
Qed.

(** A record of a registered class that lacks the class-specific key: the
    field is the empty string. *)
Lemma from_dict_default_field (d : list (pystr * pyval)) (ty : pyval) (c : PatientClass) :
  dict_get (u "type") d = Some ty ->
  PatientMeta.get_patient_class ty = inr (Some c) ->
  let f := Patient.Fields (record_get d (u "patient_id") VNone)
             (record_get d (u "name") VNone) (record_get d (u "age") VNone)
             (record_get d (u "gender") VNone)
             (record_get d (u "medical_history") (VStr [])) in
  (c = AdultPatient -> dict_get (u "occupation") d = None ->
   Patient.from_dict (VDict d) = inr (Patient.Adult f (VStr []))) /\
  (c = ChildPatient -> dict_get (u "guardian") d = None ->
   Patient.from_dict (VDict d) = inr (Patient.Child f (VStr []))) /\
  (c = SeniorPatient -> dict_get (u "chronic_conditions") d = None ->
   Patient.from_dict (VDict d) = inr (Patient.Senior f (VStr []))).
Proof.
  intros Hty Hc f.
  rewrite (from_dict_resolved d ty c Hty Hc).
  refine (conj _ (conj _ _)); intros -> Hnone; unfold record_get at 6;
    rewrite Hnone; reflexivity.
Qed.
End FactoryFacts.

(** C6.  The factory resolves a tag through its lowercase form: two tags
    with the same lowercase form that resolve give the same result for the
    same arguments, so ["ADULTPATIENT"] creates what ["adultpatient"]
    creates, an [AdultPatient]; a tag that resolves to no registered class
    raises [ValueError] with a message that ends in the tag as given, as
    for ["unknown"]. *)
Theorem factory_resolves_tag_by_lowercase `{PyRuntime} (args : list pyval)
    (kwargs : list (pystr * pyval)) :
  (forall (t1 t2 : pystr) (c : PatientClass),
     lower t1 = lower t2 ->
     PatientMeta.get_patient_class (VStr t1) = inr (Some c) ->
     PatientMeta.get_patient_class (VStr t2) = inr (Some c) /\
     PatientFactory.create_patient (VStr t1) args kwargs =
       PatientFactory.create_patient (VStr t2) args kwargs) /\
  PatientFactory.create_patient (VStr (u "ADULTPATIENT")) args kwargs =
    PatientFactory.create_patient (VStr (u "adultpatient")) args kwargs /\
  PatientFactory.create_patient (VStr (u "adultpatient")) args kwargs =
    Patient.new AdultPatient args kwargs /\
  (forall i n a g m x,
     PatientFactory.create_patient (VStr (u "ADULTPATIENT")) [i; n; a; g; m; x] [] =
       inr (Patient.Adult (Patient.Fields i n a g m) x)) /\
  (forall t : pystr,
     PatientMeta.get_patient_class (VStr t) = inr None ->
     PatientFactory.create_patient (VStr t) args kwargs =
       inl (ValueError (u "Неизвестный тип пациента: " ++ t))) /\
  PatientFactory.create_patient (VStr (u "unknown")) args kwargs =
    inl (ValueError (u "Неизвестный тип пациента: unknown")).
Proof.
  assert (Hupper : dict_get (lower (u "ADULTPATIENT")) PatientMeta._registry
                   = Some AdultPatient)
    by (rewrite lookup_ascii_tag by reflexivity; reflexivity).
  assert (Hlower : dict_get (lower (u "adultpatient")) PatientMeta._registry
                   = Some AdultPatient)
    by (rewrite lookup_ascii_tag by reflexivity; reflexivity).
  assert (Hunknown : dict_get (lower (u "unknown")) PatientMeta._registry = None)
    by (rewrite lookup_ascii_tag by reflexivity; reflexivity).
  refine (conj _ (conj _ (conj _ (conj _ (conj _ _))))).
  - intros t1 t2 c Hlow Hc. rewrite !create_patient_str.
    rewrite get_patient_class_str in Hc. rewrite get_patient_class_str.
    rewrite <- Hlow. injection Hc as Hc. rewrite Hc. split; reflexivity.
  - now rewrite !create_patient_str, Hupper, Hlower.
  - now rewrite create_patient_str, Hlower.
  - intros. now rewrite create_patient_str, Hupper.
  - intros t Ht. rewrite get_patient_class_str in Ht. injection Ht as Ht.
    now rewrite create_patient_str, Ht.
  - now rewrite create_patient_str, Hunknown.
Qed.

Lemma factory_resolves_mixed_case_tag :
  PatientMeta.get_patient_class (VStr (u "AdultPatient")) = inr (Some AdultPatient) /\
  PatientFactory.create_patient (VStr (u "SeniorPATIENT")) [] [] =
    PatientFactory.create_patient (VStr (u "seniorpatient")) [] [] /\
  PatientFactory.create_patient (VStr (u "invalidtype")) [] [] =
    inl (ValueError (u "Неизвестный тип пациента: invalidtype")).
Proof.
  pose proof (factory_resolves_tag_by_lowercase [] []) as (Hsame & _ & _ & _ & Hmiss & _).
  refine (conj _ (conj _ _)).
  - vm_compute; reflexivity.
  - refine (proj2 (Hsame (u "SeniorPATIENT") (u "seniorpatient") SeniorPatient _ _));
      vm_compute; reflexivity.
  - refine (Hmiss (u "invalidtype") _); vm_compute; reflexivity.
Defined.

(** C7 fails on the code.  A record with no [type] key does not raise
    [ValueError]: [from_dict] raises [AttributeError], whatever else the
    record holds. *)
Theorem from_dict_missing_type_raises_attribute_error `{PyRuntime} :
  let record := VDict [ (u "patient_id", VStr (u "A123"));
                        (u "name", VStr (u "Иван Петров"));
                        (u "age", VInt 35);
                        (u "gender", VStr (u "м"));
                        (u "medical_history", VStr (u "Аллергия на пыльцу"));
                        (u "occupation", VStr (u "Программист")) ] in
  Patient.from_dict record = inl AttributeError /\
  forall message, Patient.from_dict record <> inl (ValueError message).
Proof.
  intros record. subst record.
  rewrite from_dict_without_type by reflexivity.
  split; [reflexivity | discriminate].
Qed.

(** C8.  Whatever tag resolves to a class, the factory stores the field
    values it is given as they are: an age such as 200 or a gender code
    other than the two recognized ones is accepted, with the class-specific
    field passed by position or by keyword.  Only the setters validate: on
    any patient, the age setter refuses 200 and the gender setter refuses
    every code other than the two recognized ones. *)
Theorem factory_stores_fields_unvalidated `{PyRuntime} (t : pystr)
    (i n a g m x : pyval) :
  let f := Patient.Fields i n a g m in
  (PatientMeta.get_patient_class (VStr t) = inr (Some AdultPatient) ->
   PatientFactory.create_patient (VStr t) [i; n; a; g; m; x] [] = inr (Patient.Adult f x) /\
   PatientFactory.create_patient (VStr t) [i; n; a; g; m] [(u "occupation", x)] =
     inr (Patient.Adult f x)) /\
  (PatientMeta.get_patient_class (VStr t) = inr (Some ChildPatient) ->
   PatientFactory.create_patient (VStr t) [i; n; a; g; m; x] [] = inr (Patient.Child f x) /\
   PatientFactory.create_patient (VStr t) [i; n; a; g; m] [(u "guardian", x)] =
     inr (Patient.Child f x)) /\
  (PatientMeta.get_patient_class (VStr t) = inr (Some SeniorPatient) ->
   PatientFactory.create_patient (VStr t) [i; n; a; g; m; x] [] = inr (Patient.Senior f x) /\
   PatientFactory.create_patient (VStr t) [i; n; a; g; m] [(u "chronic_conditions", x)] =
     inr (Patient.Senior f x)) /\
  (PatientMeta.get_patient_class (VStr t) = inr (Some PatientWithNotifications) ->
   PatientFactory.create_patient (VStr t) [i; n; a; g; m] [] =
     inr (Patient.WithNotifications f)) /\
  (forall (p : Patient.t) (out : list pystr),
     Patient.set_age (VInt 200) (World p out) =
       (inr tt, World p (out ++ [u "Недопустимый возраст"]))) /\
  (forall (p : Patient.t) (out : list pystr) (code : pystr),
     code <> u "м" -> code <> u "ж" ->
     Patient.set_gender (VStr code) (World p out) =
       (inr tt, World p (out ++ [u "Недопустимый пол"]))).
Proof.
  intros f.
  refine (conj _ (conj _ (conj _ (conj _ (conj _ _))))).
  1-4: intros Hc; rewrite get_patient_class_str in Hc; injection Hc as Hc;
       rewrite !create_patient_str, Hc; try split; reflexivity.
  - reflexivity.
  - intros p out code Hm Hf. unfold Patient.set_gender. rewrite !py_eq_str.
    apply str_eqb_neq in Hm, Hf. rewrite Hm, Hf. reflexivity.
Qed.

Lemma factory_accepts_age_200 :
  PatientFactory.create_patient (VStr (u "adultpatient"))
    [VStr (u "X999"); VStr (u "Некорректный Пациент"); VInt 200; VStr (u "x");
     VStr (u "Ошибка"); VStr (u "нет")] [] =
    inr (Patient.Adult
           (Patient.Fields (VStr (u "X999")) (VStr (u "Некорректный Пациент"))
              (VInt 200) (VStr (u "x")) (VStr (u "Ошибка")))
           (VStr (u "нет"))) /\
  Patient.set_gender (VStr (u "x")) (World ivan []) =
    (inr tt, World ivan [u "Недопустимый пол"]).
Proof.
  pose proof (factory_stores_fields_unvalidated (u "adultpatient")
                (VStr (u "X999")) (VStr (u "Некорректный Пациент")) (VInt 200)
                (VStr (u "x")) (VStr (u "Ошибка")) (VStr (u "нет")))
    as (Hadult & _ & _ & _ & _ & Hgender).
  split.
  - refine (proj1 (Hadult _)). vm_compute; reflexivity.
  - refine (Hgender ivan [] (u "x") _ _); vm_compute; discriminate.
Defined.

(** C9, as amended.  [from_dict] applied to [to_dict a] returns a plain
    [Appointment] built by replaying [add_service] over the services of [a]
    in their order; its [appointment_id], [doctor], [date], [diagnosis],
    [prescription], [doctor_info] and service sequence are those of [a],
    and its patient is the patient of [a] with a falsy history stored as
    the empty string: the very patient of [a] when that history is truthy
    or already the empty string. *)
Theorem appointment_roundtrip `{PyRuntime} (a : Appointment.t) :
  exists r : Appointment.t,
    Appointment.from_dict (Appointment.to_dict a) = inr r /\
    r = fold_left Appointment.add_service (Appointment.services a) (restored_blank a) /\
    Appointment.class_of r = Appointment /\
    Appointment.appointment_id r = Appointment.appointment_id a /\
    Appointment.doctor r = Appointment.doctor a /\
    Appointment.date r = Appointment.date a /\
    Appointment.diagnosis r = Appointment.diagnosis a /\
    Appointment.prescription r = Appointment.prescription a /\
    Appointment.doctor_info r = Appointment.doctor_info a /\
    Appointment.services r = Appointment.services a /\
    Appointment.patient r = stored_history (Appointment.patient a) /\
    (truthy (Patient.medical_history (Patient.base (Appointment.patient a))) = true \/
     Patient.medical_history (Patient.base (Appointment.patient a)) = VStr [] ->
     Appointment.patient r = Appointment.patient a).
Proof.
  eexists. split; [apply appointment_from_dict_to_dict|].
  split; [reflexivity|]. rewrite fold_add_service. cbn.
  repeat (split; [reflexivity|]).
  intros Hm. now apply stored_history_kept.
Qed.

Lemma appointment_roundtrip_ivan :
  exists r : Appointment.t,
    Appointment.from_dict (Appointment.to_dict (appointment_for ivan)) = inr r /\
    Appointment.services r = Appointment.services (appointment_for ivan) /\
    Appointment.patient r = ivan.
Proof.
  destruct (appointment_roundtrip (appointment_for ivan))
    as (r & Hr & _ & _ & _ & _ & _ & _ & _ & _ & Hs & _ & Hp).
  exists r. split; [exact Hr|]. split; [exact Hs|].
  apply Hp. left. reflexivity.
Defined.

(** C9 as stated fails: the appointment of a patient whose history is
    [None] comes back with a patient whose history is the empty string. *)
Lemma appointment_roundtrip_loses_none_history :
  exists r : Appointment.t,
    Appointment.from_dict (Appointment.to_dict (appointment_for ivan_without_history))
      = inr r /\
    Appointment.patient r <> Appointment.patient (appointment_for ivan_without_history) /\
    Patient.medical_history (Patient.base (Appointment.patient r)) = VStr [] /\
    Patient.medical_history
      (Patient.base (Appointment.patient (appointment_for ivan_without_history))) = VNone /\
    Patient.__eq__ (Appointment.patient r)
      (Appointment.patient (appointment_for ivan_without_history)) = inl TypeError.
Proof.
  eexists. split; [vm_compute; reflexivity|].
  split; [discriminate|]. repeat split; reflexivity.
Qed.

(** C10.  The registry holds every concrete class under its lowercased
    name and not the base class, so not only the three variants: the tag
    ["patientwithnotifications"] resolves, and the factory given the five
    common fields returns a [PatientWithNotifications], which is an
    instance of none of [AdultPatient], [ChildPatient], [SeniorPatient]. *)
Theorem registry_holds_patientwithnotifications `{PyRuntime} :
  (forall c : PatientClass,
     dict_get (lower (class_name c)) PatientMeta._registry =
       if class_eqb c Patient then None else Some c) /\
  PatientMeta.get_patient_class (VStr (u "patientwithnotifications")) =
    inr (Some PatientWithNotifications) /\
  forall i n a g m : pyval,
    let p := Patient.WithNotifications (Patient.Fields i n a g m) in
    PatientFactory.create_patient (VStr (u "patientwithnotifications")) [i; n; a; g; m] []
      = inr p /\
    Patient.class_of p = PatientWithNotifications /\
    Patient.isinstance p AdultPatient = false /\
    Patient.isinstance p ChildPatient = false /\
    Patient.isinstance p SeniorPatient = false.
Proof.
  assert (Htag : dict_get (lower (u "patientwithnotifications")) PatientMeta._registry
                 = Some PatientWithNotifications)
    by (rewrite lookup_ascii_tag by reflexivity; reflexivity).
  refine (conj _ (conj _ _)).
  - intros c. rewrite registry_contents, lower_class_name. destruct c; reflexivity.
  - now rewrite get_patient_class_str, Htag.
  - intros i n a g m p. rewrite create_patient_str, Htag.
    repeat split; reflexivity.
Qed.

(* ================================================================== *)
(** ** Further properties of serialization *)
(* ================================================================== *)

Section MoreSerialization.
Context `{PyRuntime}.

Lemma to_dict_stored_history (p : Patient.t) :
  Patient.to_dict (stored_history p) = Patient.to_dict p.
Proof.
  destruct (truthy (Patient.medical_history (Patient.base p))) eqn:Hm.
  - now rewrite stored_history_kept by (left; exact Hm).
  - destruct p as [[i n a g m] x | [i n a g m] x | [i n a g m] x | [i n a g m]];
      cbn [Patient.base Patient.medical_history] in Hm;
      unfold Patient.to_dict, stored_history;
      cbn [Patient.base Patient.with_base Patient.medical_history Patient.class_of
           Patient.patient_id Patient.name Patient.age Patient.gender];
      rewrite Hm; vm_compute; reflexivity.
Qed.

(** No tag resolves to the abstract base class. *)
Lemma registry_never_base (k : pystr) (c : PatientClass) :
  dict_get k PatientMeta._registry = Some c -> c <> Patient.
Proof.
  rewrite registry_contents. cbn [dict_get].
  repeat match goal with
  | |- context [if ?b then _ else _] => destruct b
  end; intros Hc; inversion Hc; discriminate.
Qed.

Lemma resolved_never_base (v : pyval) (c : PatientClass) :
  PatientMeta.get_patient_class v = inr (Some c) -> c <> Patient.
Proof.
  destruct v; try discriminate. rewrite get_patient_class_str.
  intros Hc. injection Hc as Hc. exact (registry_never_base _ _ Hc).
Qed.
End MoreSerialization.

(** X1.  Serialization is stable: the patient that [from_dict] restores
    from [to_dict p] serializes to the very record [to_dict p], for every
    patient of every class (also when a falsy history was written as the
    empty string). *)
Theorem patient_record_stable `{PyRuntime} (p : Patient.t) :
  exists q : Patient.t,
    Patient.from_dict (Patient.to_dict p) = inr q /\
    Patient.to_dict q = Patient.to_dict p.
Proof.
  exists (stored_history p).
  split; [apply from_dict_to_dict | apply to_dict_stored_history].
Qed.

(** X2.  The same for appointments: the appointment restored from
    [to_dict a] serializes to [to_dict a] again, whatever the class of [a]
    and whatever its services. *)
Theorem appointment_record_stable `{PyRuntime} (a : Appointment.t) :
  exists r : Appointment.t,
    Appointment.from_dict (Appointment.to_dict a) = inr r /\
    Appointment.to_dict r = Appointment.to_dict a.
Proof.
  eexists. split; [apply appointment_from_dict_to_dict|].
  rewrite fold_add_service. unfold Appointment.to_dict, restored_blank.
  cbn [Appointment.__init__ Appointment.appointment_id Appointment.patient
       Appointment.doctor Appointment.date Appointment.diagnosis
       Appointment.prescription Appointment.doctor_info Appointment.services app].
  now rewrite to_dict_stored_history.
Qed.

(** X3.  A record whose [type] is present but does not name a registered
    class: a string raises [ValueError] with the string at the end of the
    message; a value that is not a string raises [AttributeError]. *)
Theorem from_dict_unresolvable_type `{PyRuntime} (d : list (pystr * pyval))
    (ty : pyval) :
  dict_get (u "type") d = Some ty ->
  (forall t : pystr,
     ty = VStr t -> PatientMeta.get_patient_class (VStr t) = inr None ->
     Patient.from_dict (VDict d) =
       inl (ValueError (u "Неизвестный тип пациента: " ++ t))) /\
  ((forall t : pystr, ty <> VStr t) ->
   Patient.from_dict (VDict d) = inl AttributeError).
Proof.
  intros Hty. split.
  - intros t -> Hnone. rewrite get_patient_class_str in Hnone.
    injection Hnone as Hnone. now apply from_dict_unregistered.
  - intros Hnot. unfold Patient.from_dict, py_get, rbind. rewrite Hty.
    destruct ty; try reflexivity. now destruct (Hnot s).
Qed.

Lemma from_dict_unresolvable_type_examples :
  Patient.from_dict (VDict [(u "name", VStr (u "Иван")); (u "type", VStr (u "patient"))])
    = inl (ValueError (u "Неизвестный тип пациента: patient")) /\
  Patient.from_dict (VDict [(u "type", VInt 7)]) = inl AttributeError.
Proof.
  split.
  - refine (proj1 (from_dict_unresolvable_type
                     [(u "name", VStr (u "Иван")); (u "type", VStr (u "patient"))]
                     (VStr (u "patient")) _) (u "patient") _ _);
      vm_compute; reflexivity.
  - refine (proj2 (from_dict_unresolvable_type [(u "type", VInt 7)] (VInt 7) _) _);
      [vm_compute; reflexivity | discriminate].
Defined.

(** X4.  A record whose [type] resolves is always accepted: [from_dict]
    returns an instance of the resolved class whose common fields are the
    values the record holds under their keys, taken as they are, with
    [None] for an absent [patient_id], [name], [age] or [gender] and the
    empty string for an absent [medical_history]. *)
Theorem from_dict_takes_fields_as_given `{PyRuntime} (d : list (pystr * pyval))
    (ty : pyval) (c : PatientClass) :
  dict_get (u "type") d = Some ty ->
  PatientMeta.get_patient_class ty = inr (Some c) ->
  exists q : Patient.t,
    Patient.from_dict (VDict d) = inr q /\
    Patient.class_of q = c /\
    Patient.base q =
      Patient.Fields (record_get d (u "patient_id") VNone)
        (record_get d (u "name") VNone) (record_get d (u "age") VNone)
        (record_get d (u "gender") VNone)
        (record_get d (u "medical_history") (VStr [])).
Proof.
  intros Hty Hc. rewrite (from_dict_resolved d ty c Hty Hc).
  pose proof (resolved_never_base ty c Hc) as Hbase.
  destruct c; try contradiction; eexists; (split; [reflexivity|]);
    split; reflexivity.
Qed.

Lemma from_dict_of_bare_type :
  exists q : Patient.t,
    Patient.from_dict (VDict [(u "type", VStr (u "ChildPatient"))]) = inr q /\
    Patient.class_of q = ChildPatient /\
    Patient.base q = Patient.Fields VNone VNone VNone VNone (VStr []).
Proof.
  refine (from_dict_takes_fields_as_given [(u "type", VStr (u "ChildPatient"))]
            (VStr (u "ChildPatient")) ChildPatient _ _); vm_compute; reflexivity.
Defined.

Lemma py_getitem_present (d : list (pystr * pyval)) (k : pystr) (x : pyval) :
  py_getitem (VDict d) k = inr x -> dict_get k d <> None.
Proof.
  cbn [py_getitem]. destruct (dict_get k d); [discriminate | discriminate].
Qed.

(** X5.  [Appointment.from_dict] is strict where [Patient.from_dict] is
    lenient: it succeeds only on a record that holds all eight keys
    [patient], [doctor_info], [appointment_id], [doctor], [date],
    [diagnosis], [prescription] and [services]; a record without
    [patient] raises [KeyError] for that key. *)
Theorem appointment_from_dict_needs_every_key `{PyRuntime}
    (d : list (pystr * pyval)) :
  (forall r : Appointment.t,
     Appointment.from_dict (VDict d) = inr r ->
     Forall (fun k => dict_get k d <> None)
       [ u "patient"; u "doctor_info"; u "appointment_id"; u "doctor"; u "date";
         u "diagnosis"; u "prescription"; u "services" ]) /\
  (dict_get (u "patient") d = None ->
   Appointment.from_dict (VDict d) = inl (KeyError (u "patient"))).
Proof.
  split.
  - intros r Hr. unfold Appointment.from_dict in Hr.
    repeat match type of Hr with
    | rbind ?c _ = _ =>
        destruct c eqn:?; cbn [rbind] in Hr; cbv zeta in Hr; [discriminate Hr|]
    end.
    repeat constructor;
      match goal with
      | E : py_getitem (VDict d) ?k = inr _ |- dict_get ?k d <> None =>
          exact (py_getitem_present d k _ E)
      end.
  - intros Hnone. unfold Appointment.from_dict. cbn [py_getitem].
    rewrite Hnone. reflexivity.
Qed.

Lemma appointment_from_dict_needs_every_key_examples :
  Forall (fun k => dict_get k
            match Appointment.to_dict (appointment_for ivan) with
            | VDict d => d
            | _ => []
            end <> None)
    [ u "patient"; u "doctor_info"; u "appointment_id"; u "doctor"; u "date";
      u "diagnosis"; u "prescription"; u "services" ] /\
  Appointment.from_dict (VDict [(u "doctor", VStr (u "Доктор Иванов"))]) =
    inl (KeyError (u "patient")).
Proof.
  split.
  - exact (proj1 (appointment_from_dict_needs_every_key _) _
             (appointment_from_dict_to_dict (appointment_for ivan))).
  - refine (proj2 (appointment_from_dict_needs_every_key
                     [(u "doctor", VStr (u "Доктор Иванов"))]) _).
    vm_compute; reflexivity.
Defined.

(* ================================================================== *)
(** ** Further properties of the comparison methods *)
(* ================================================================== *)

(** The three methods on two patients that have a sort key. *)
Lemma compare_by_key (a b : Patient.t) (ka kb : Z * nat) :
  sort_key a = Some ka ->
  sort_key b = Some kb ->
  Patient.__eq__ a b = inr ((fst ka =? fst kb)%Z && (snd ka =? snd kb)%nat) /\
  Patient.__lt__ a b =
    inr ((fst ka <? fst kb)%Z || (fst ka =? fst kb)%Z && (snd ka <? snd kb)%nat) /\
  Patient.__gt__ a b =
    inr ((fst kb <? fst ka)%Z || (fst ka =? fst kb)%Z && (snd kb <? snd ka)%nat).
Proof.
  unfold sort_key, Patient.__eq__, Patient.__lt__, Patient.__gt__, py_gt.
  destruct (Patient.age (Patient.base a)); try discriminate.
  destruct (py_len (Patient.medical_history (Patient.base a))); try discriminate.
  destruct (Patient.age (Patient.base b)); try discriminate.
  destruct (py_len (Patient.medical_history (Patient.base b))); try discriminate.
  intros Ha Hb. injection Ha as <-. injection Hb as <-.
  cbn [py_lt py_eq rbind fst snd].
  destruct (Z.eqb_spec z z0), (Z.ltb_spec z z0), (Z.ltb_spec z0 z); try lia;
    repeat split; reflexivity.
Qed.

Lemma key_lt_ltb (k1 k2 : Z * nat) :
  (fst k1 <? fst k2)%Z || (fst k1 =? fst k2)%Z && (snd k1 <? snd k2)%nat = true
  <-> key_lt k1 k2.
Proof.
  unfold key_lt.
  rewrite orb_true_iff, andb_true_iff, Z.ltb_lt, Z.eqb_eq, Nat.ltb_lt. tauto.
Qed.

Lemma sort_key_stored_history (p : Patient.t) (k : Z * nat) :
  sort_key p = Some k -> sort_key (stored_history p) = Some k.
Proof.
  destruct (truthy (Patient.medical_history (Patient.base p))) eqn:Hm.
  - now rewrite stored_history_kept by (left; exact Hm).
  - destruct p as [[i n a g m] x | [i n a g m] x | [i n a g m] x | [i n a g m]];
      unfold sort_key, stored_history;
      cbn [Patient.base Patient.with_base Patient.medical_history Patient.age
           Patient.patient_id Patient.name Patient.gender] in *;
      rewrite Hm; destruct a; try discriminate;
      destruct m as [| [] | z0 | [|] | [|] | [|]]; try discriminate; auto;
      destruct z0; discriminate.
Qed.

(** X6.  For a patient with an integer age and a history that has a
    length, the copy restored from its record compares equal to it under
    [==], and is neither [<] nor [>] than it: also when the round trip
    turned an empty list into the empty string. *)
Theorem restored_patient_compares_equal `{PyRuntime} (p : Patient.t)
    (k : Z * nat) :
  sort_key p = Some k ->
  exists q : Patient.t,
    Patient.from_dict (Patient.to_dict p) = inr q /\
    Patient.__eq__ q p = inr true /\
    Patient.__lt__ q p = inr false /\
    Patient.__gt__ q p = inr false.
Proof.
  intros Hk. exists (stored_history p). split; [apply from_dict_to_dict|].
  destruct (compare_by_key (stored_history p) p k k
              (sort_key_stored_history p k Hk) Hk) as (-> & -> & ->).
  rewrite Z.eqb_refl, Nat.eqb_refl, Z.ltb_irrefl, Nat.ltb_irrefl.
  repeat split; reflexivity.
Qed.

Lemma restored_patient_compares_equal_empty_list :
  let p := Patient.Child
             (Patient.Fields (VStr (u "C456")) (VStr (u "Маша Сидорова")) (VInt 8)
                (VStr (u "ж")) (VList []))
             (VStr (u "Анна Сидорова")) in
  exists q : Patient.t,
    Patient.from_dict (Patient.to_dict p) = inr q /\
    Patient.__eq__ q p = inr true /\
    Patient.__lt__ q p = inr false /\
    Patient.__gt__ q p = inr false.
Proof.
  intros p. apply (restored_patient_compares_equal p (8%Z, 0)). reflexivity.
Defined.

(** X7.  On patients with an integer age and a history that has a length,
    exactly one of [a < b], [a == b], [a > b] holds, and [a > b] is
    [b < a]. *)
Theorem comparison_trichotomy (a b : Patient.t) (ka kb : Z * nat) :
  sort_key a = Some ka ->
  sort_key b = Some kb ->
  exists lt eq gt : bool,
    Patient.__lt__ a b = inr lt /\
    Patient.__eq__ a b = inr eq /\
    Patient.__gt__ a b = inr gt /\
    Patient.__lt__ b a = inr gt /\
    ((lt = true /\ eq = false /\ gt = false) \/
     (lt = false /\ eq = true /\ gt = false) \/
     (lt = false /\ eq = false /\ gt = true)).
Proof.
  intros Ha Hb.
  destruct (compare_by_key a b ka kb Ha Hb) as (He & Hl & Hg).
  destruct (compare_by_key b a kb ka Hb Ha) as (_ & Hl' & _).
  do 3 eexists. split; [exact Hl|]. split; [exact He|]. split; [exact Hg|].
  split.
  - rewrite Hl'. do 2 f_equal. now rewrite (Z.eqb_sym (fst kb)).
  - destruct (Z.eqb_spec (fst ka) (fst kb)), (Z.ltb_spec (fst ka) (fst kb)),
      (Z.ltb_spec (fst kb) (fst ka)); try lia;
      destruct (Nat.eqb_spec (snd ka) (snd kb)), (Nat.ltb_spec (snd ka) (snd kb)),
        (Nat.ltb_spec (snd kb) (snd ka)); try lia; cbn; tauto.
Qed.

Lemma comparison_trichotomy_ivan_petr :
  exists lt eq gt : bool,
    Patient.__lt__ ivan petr = inr lt /\
    Patient.__eq__ ivan petr = inr eq /\
    Patient.__gt__ ivan petr = inr gt /\
    Patient.__lt__ petr ivan = inr gt /\
    ((lt = true /\ eq = false /\ gt = false) \/
     (lt = false /\ eq = true /\ gt = false) \/
     (lt = false /\ eq = false /\ gt = true)).
Proof.
  apply (comparison_trichotomy ivan petr (35%Z, 18) (70%Z, 10)); reflexivity.
Defined.

(** X8.  On such patients [<] is a strict order: no patient is less than
    itself, and [a < b] with [b < c] gives [a < c]; [==] relates exactly
    the patients with the same age and history length, so it is
    transitive too. *)
Theorem comparison_is_strict_order (a b c : Patient.t) (ka kb kc : Z * nat) :
  sort_key a = Some ka ->
  sort_key b = Some kb ->
  sort_key c = Some kc ->
  Patient.__lt__ a a = inr false /\
  (Patient.__lt__ a b = inr true -> Patient.__lt__ b c = inr true ->
   Patient.__lt__ a c = inr true) /\
  (Patient.__eq__ a b = inr true <-> ka = kb) /\
  (Patient.__eq__ a b = inr true -> Patient.__eq__ b c = inr true ->
   Patient.__eq__ a c = inr true).
Proof.
  intros Ha Hb Hc.
  destruct (compare_by_key a a ka ka Ha Ha) as (_ & Haa & _).
  destruct (compare_by_key a b ka kb Ha Hb) as (Eab & Lab & _).
  destruct (compare_by_key b c kb kc Hb Hc) as (Ebc & Lbc & _).
  destruct (compare_by_key a c ka kc Ha Hc) as (Eac & Lac & _).
  assert (Heq : forall k1 k2 : Z * nat,
             (fst k1 =? fst k2)%Z && (snd k1 =? snd k2)%nat = true <-> k1 = k2).
  { intros [x n] [y m]. cbn [fst snd].
    rewrite andb_true_iff, Z.eqb_eq, Nat.eqb_eq. split.
    - intros [-> ->]. reflexivity.
    - intros E. injection E as -> ->. now split. }
  refine (conj _ (conj _ (conj _ _))).
  - rewrite Haa, Z.ltb_irrefl, Z.eqb_refl, Nat.ltb_irrefl. reflexivity.
  - rewrite Lab, Lbc, Lac. intros H1 H2.
    injection H1 as H1. injection H2 as H2. f_equal.
    apply key_lt_ltb in H1, H2. apply key_lt_ltb.
    unfold key_lt in *. lia.
  - rewrite Eab. split.
    + intros E. injection E as E. now apply Heq.
    + intros E. f_equal. now apply Heq.
  - rewrite Eab, Ebc, Eac. intros H1 H2.
    injection H1 as H1. injection H2 as H2. f_equal.
    apply Heq in H1, H2. apply Heq. congruence.
Qed.

Lemma comparison_is_strict_order_examples :
  Patient.__lt__ ivan ivan = inr false /\
  (Patient.__eq__ ivan oleg = inr true <-> (35%Z, 18) = (35%Z, 18)) /\
  Patient.__eq__ ivan oleg = inr true.
Proof.
  destruct (comparison_is_strict_order ivan oleg petr (35%Z, 18) (35%Z, 18)
              (70%Z, 10) eq_refl eq_refl eq_refl) as (Hirr & _ & Heq & _).
  split; [exact Hirr|]. split; [exact Heq|]. apply Heq. reflexivity.
Defined.

(* ================================================================== *)
(** ** Further properties of the approval chain *)
(* ================================================================== *)

Section MoreChainFacts.
Context `{PyRuntime}.

Lemma doctor_approves (s : option Handler) (text : pystr) (w : world Appointment.t) :
  contains minor_change (lower text) = true ->
  handle_request (Doctor s) (VStr text) w =
    (inr tt, World (with_diagnosis (obj w) (VStr text)) (stdout w ++ [doctor_approved])).
Proof.
  intros Hminor.
  cbn [handle_request bind lift py_lower]. rewrite Hminor. reflexivity.
Qed.

Lemma department_head_forwards (next : Handler) (text : pystr)
    (w : world Appointment.t) :
  contains treatment_revision (lower text) = false ->
  handle_request (DepartmentHead (Some next)) (VStr text) w =
    handle_request next (VStr text) (World (obj w) (stdout w ++ [head_forwarded])).
Proof.
  intros Hrev.
  cbn [handle_request bind lift py_lower]. rewrite Hrev. reflexivity.
Qed.

(** A chain without a chief, given a text that carries neither marker. *)
Fixpoint rejected_without_chief (h : Handler) (text : pystr)
    (w : world Appointment.t) {struct h} :
  has_chief h = false ->
  contains minor_change (lower text) = false ->
  contains treatment_revision (lower text) = false ->
  exists lines : list pystr,
    handle_request h (VStr text) w =
      (inr tt, World (obj w) (stdout w ++ lines ++ [not_approved])).
Proof.
  intros Hchief Hminor Hrev.
  destruct h as [[next|] | [next|] | s]; cbn [has_chief] in Hchief;
    try discriminate Hchief.
  - rewrite doctor_forwards by exact Hminor.
    destruct (rejected_without_chief next text
                (World (obj w) (stdout w ++ [doctor_forwarded])) Hchief Hminor Hrev)
      as (lines & ->).
    exists (doctor_forwarded :: lines). cbn [obj stdout].
    now rewrite <- app_assoc.
  - exists []. cbn [handle_request bind lift py_lower]. rewrite Hminor.
    reflexivity.
  - rewrite department_head_forwards by exact Hrev.
    destruct (rejected_without_chief next text
                (World (obj w) (stdout w ++ [head_forwarded])) Hchief Hminor Hrev)
      as (lines & ->).
    exists (head_forwarded :: lines). cbn [obj stdout].
    now rewrite <- app_assoc.
  - exists []. cbn [handle_request bind lift py_lower]. rewrite Hrev.
    reflexivity.
Qed.

(** What a call of a chain can do to the world. *)
Fixpoint handle_request_effect (h : Handler) (new_diagnosis : pyval)
    (w : world Appointment.t) {struct h} :
  (handle_request h new_diagnosis w = (inl AttributeError, w) /\
   forall text, new_diagnosis <> VStr text) \/
  exists lines : list pystr,
    lines <> [] /\
    (handle_request h new_diagnosis w = (inr tt, World (obj w) (stdout w ++ lines)) \/
     handle_request h new_diagnosis w =
       (inr tt, World (with_diagnosis (obj w) new_diagnosis) (stdout w ++ lines))).
Proof.
  destruct h as [[next|] | [next|] | s].
  5: { right. exists [chief_approved]. split; [discriminate|]. right. reflexivity. }
  all: destruct new_diagnosis as [| b | z | text | l | d];
    try (left; split; [reflexivity | discriminate]);
    right; cbn [handle_request bind lift py_lower].
  - destruct (contains minor_change (lower text)).
    + exists [doctor_approved]. split; [discriminate|]. right. reflexivity.
    + destruct (handle_request_effect next (VStr text)
                  (World (obj w) (stdout w ++ [doctor_forwarded])))
        as [[_ Hno] | (lines & _ & Hnext)]; [now destruct (Hno text)|].
      exists (doctor_forwarded :: lines). split; [discriminate|].
      cbn [print bind obj stdout].
      destruct Hnext as [-> | ->]; cbn [obj stdout]; rewrite <- app_assoc;
        [left | right]; reflexivity.
  - destruct (contains minor_change (lower text)).
    + exists [doctor_approved]. split; [discriminate|]. right. reflexivity.
    + exists [not_approved]. split; [discriminate|]. left. reflexivity.
  - destruct (contains treatment_revision (lower text)).
    + exists [head_approved]. split; [discriminate|]. right. reflexivity.
    + destruct (handle_request_effect next (VStr text)
                  (World (obj w) (stdout w ++ [head_forwarded])))
        as [[_ Hno] | (lines & _ & Hnext)]; [now destruct (Hno text)|].
      exists (head_forwarded :: lines). split; [discriminate|].
      cbn [print bind obj stdout].
      destruct Hnext as [-> | ->]; cbn [obj stdout]; rewrite <- app_assoc;
        [left | right]; reflexivity.
  - destruct (contains treatment_revision (lower text)).
    + exists [head_approved]. split; [discriminate|]. right. reflexivity.
    + exists [not_approved]. split; [discriminate|]. left. reflexivity.
Qed.
End MoreChainFacts.

(** X9.  On the chain doctor, department head, chief physician every text
    is approved, by the first level whose rule it meets: the doctor when its
    lowercase form contains the doctor's marker (whether or not it also
    contains the department head's), else the department head when it
    contains that marker, else the chief; the diagnosis always becomes the
    submitted text. *)
Theorem full_chain_always_approves `{PyRuntime} (chief_successor : option Handler)
    (a : Appointment.t) (out : list pystr) (text : pystr) :
  handle_request
    (Doctor (Some (DepartmentHead (Some (ChiefPhysician chief_successor)))))
    (VStr text) (World a out) =
    (inr tt,
     World (with_diagnosis a (VStr text))
       (out ++
        if contains minor_change (lower text) then [doctor_approved]
        else if contains treatment_revision (lower text)
             then [doctor_forwarded; head_approved]
             else [doctor_forwarded; head_forwarded; chief_approved])).
Proof.
  destruct (contains minor_change (lower text)) eqn:Hminor.
  - now rewrite doctor_approves.
  - rewrite doctor_forwards by exact Hminor.
    destruct (contains treatment_revision (lower text)) eqn:Hrev.
    + rewrite department_head_approves by exact Hrev.
      cbn [obj stdout]. now rewrite <- app_assoc.
    + rewrite department_head_forwards by exact Hrev.
      cbn [handle_request bind print Appointment.set_diagnosis obj stdout].
      unfold with_diagnosis. cbn [obj]. now rewrite <- !app_assoc.
Qed.

(** X10.  A chain that holds no chief physician does not approve a text
    that carries neither marker: the call returns normally, the last line
    printed says that the change cannot be approved, and the appointment
    is left as it was. *)
Theorem chain_without_chief_rejects `{PyRuntime} (h : Handler) (text : pystr)
    (w : world Appointment.t) :
  has_chief h = false ->
  contains minor_change (lower text) = false ->
  contains treatment_revision (lower text) = false ->
  exists lines : list pystr,
    handle_request h (VStr text) w =
      (inr tt, World (obj w) (stdout w ++ lines ++ [not_approved])).
Proof. apply rejected_without_chief. Qed.

Lemma chain_without_chief_rejects_serious_change :
  exists lines : list pystr,
    handle_request (Doctor (Some (DepartmentHead None)))
      (VStr (u "Серьезное изменение")) (World (appointment_for ivan) []) =
      (inr tt, World (appointment_for ivan) ([] ++ lines ++ [not_approved])).
Proof.
  apply (chain_without_chief_rejects (Doctor (Some (DepartmentHead None)))
           (u "Серьезное изменение") (World (appointment_for ivan) []));
    vm_compute; reflexivity.
Defined.

(** X11.  Whatever the chain and whatever value is submitted, a call of
    [handle_request] either raises [AttributeError] at once, touching
    nothing (only when the value is not a string), or returns normally
    after printing at least one line; the appointment is then as before or
    differs in its diagnosis alone, which is the submitted value.  No other
    exception is raised and no other field is written. *)
Theorem handle_request_changes_diagnosis_only `{PyRuntime} (h : Handler)
    (new_diagnosis : pyval) (w : world Appointment.t) :
  (handle_request h new_diagnosis w = (inl AttributeError, w) /\
   forall text, new_diagnosis <> VStr text) \/
  exists lines : list pystr,
    lines <> [] /\
    (handle_request h new_diagnosis w = (inr tt, World (obj w) (stdout w ++ lines)) \/
     handle_request h new_diagnosis w =
       (inr tt, World (with_diagnosis (obj w) new_diagnosis) (stdout w ++ lines))).
Proof. apply handle_request_effect. Qed.

(** X12.  The role only opens the gate: for each of the three recognized
    roles, [change_diagnosis] prints the request line and then does exactly
    what the chain does, so the outcome does not depend on which of them
    asks, nor on the level of the handler that is given. *)
Theorem authorized_role_runs_chain `{PyRuntime} (role : pystr)
    (new_diagnosis : pyval) (handler : Handler) (w : world Appointment.t) :
  In role required_roles ->
  change_diagnosis (VStr role) (new_diagnosis, handler) w =
    handle_request handler new_diagnosis
      (World (obj w) (stdout w ++ [request_line new_diagnosis])).
Proof.
  intros Hrole. unfold change_diagnosis, check_permissions.
  rewrite (proj2 (role_check role) Hrole).
  cbn [negb bind print obj stdout]. unfold request_line. reflexivity.
Qed.

Lemma department_head_role_runs_chain :
  change_diagnosis (VStr (u "Department_head"))
    (VStr (u "Серьезное изменение"), main_chain) (World (appointment_for ivan) []) =
    (inr tt,
     World (with_diagnosis (appointment_for ivan) (VStr (u "Серьезное изменение")))
       [u "Запрос на изменение диагноза на 'Серьезное изменение'...";
        doctor_forwarded; head_forwarded; chief_approved]).
Proof.
  rewrite (authorized_role_runs_chain (u "Department_head")
             (VStr (u "Серьезное изменение")) main_chain
             (World (appointment_for ivan) []));
    [vm_compute; reflexivity | right; left; reflexivity].
Defined.

(* ================================================================== *)
(** ** Further properties of the setters and of the factory *)
(* ================================================================== *)

Lemma py_eq_to_str (g : pyval) (s : pystr) : py_eq g (VStr s) = true <-> g = VStr s.
Proof.
  destruct g; cbn [py_eq]; try (split; discriminate).
  rewrite str_eqb_eq. split; congruence.
Qed.

(** X13.  The gender setter stores a value exactly when it is the string
    ["м"] or the string ["ж"]: the gender of the patient is then that
    value, nothing is printed, and its class and every other field are as
    before.  Any other value, of any type, leaves the patient as it was,
    and the call returns normally after printing a message. *)
Theorem gender_setter_accepts_two_codes (p : Patient.t) (g : pyval)
    (out : list pystr) :
  (g = VStr (u "м") \/ g = VStr (u "ж") ->
   exists q : Patient.t,
     Patient.set_gender g (World p out) = (inr tt, World q out) /\
     Patient.gender (Patient.base q) = g /\
     Patient.class_of q = Patient.class_of p /\
     Patient.patient_id (Patient.base q) = Patient.patient_id (Patient.base p) /\
     Patient.name (Patient.base q) = Patient.name (Patient.base p) /\
     Patient.age (Patient.base q) = Patient.age (Patient.base p) /\
     Patient.medical_history (Patient.base q) =
       Patient.medical_history (Patient.base p) /\
     Patient.occupation q = Patient.occupation p /\
     Patient.guardian q = Patient.guardian p /\
     Patient.chronic_conditions q = Patient.chronic_conditions p /\
     q = with_gender p g) /\
  (g <> VStr (u "м") -> g <> VStr (u "ж") ->
   Patient.set_gender g (World p out) =
     (inr tt, World p (out ++ [u "Недопустимый пол"]))).
Proof.
  unfold Patient.set_gender. split.
  - intros Hg.
    assert (Hor : py_eq g (VStr (u "м")) || py_eq g (VStr (u "ж")) = true).
    { apply orb_true_iff. destruct Hg as [Hg | Hg]; [left | right];
        now apply py_eq_to_str. }
    rewrite Hor. exists (with_gender p g). split; [reflexivity|].
    repeat (split; [destruct p; reflexivity|]). reflexivity.
  - intros Hm Hf.
    assert (Hor : py_eq g (VStr (u "м")) || py_eq g (VStr (u "ж")) = false).
    { apply orb_false_iff. split.
      - destruct (py_eq g (VStr (u "м"))) eqn:E; [|reflexivity].
        apply py_eq_to_str in E. contradiction.
      - destruct (py_eq g (VStr (u "ж"))) eqn:E; [|reflexivity].
        apply py_eq_to_str in E. contradiction. }
    rewrite Hor. reflexivity.
Qed.

Lemma gender_setter_examples :
  (exists q : Patient.t,
     Patient.set_gender (VStr (u "ж")) (World ivan []) = (inr tt, World q []) /\
     Patient.gender (Patient.base q) = VStr (u "ж")) /\
  Patient.set_gender (VStr (u "М")) (World ivan []) =
    (inr tt, World ivan [u "Недопустимый пол"]) /\
  Patient.set_gender VNone (World ivan []) =
    (inr tt, World ivan [u "Недопустимый пол"]).
Proof.
  refine (conj _ (conj _ _)).
  - destruct (proj1 (gender_setter_accepts_two_codes ivan (VStr (u "ж")) [])
                (or_intror eq_refl)) as (q & Hq & Hg & _).
    exists q. split; [exact Hq | exact Hg].
  - apply (proj2 (gender_setter_accepts_two_codes ivan (VStr (u "М")) []));
      vm_compute; discriminate.
  - apply (proj2 (gender_setter_accepts_two_codes ivan VNone [])); discriminate.
Defined.

(** X14.  The age setter compares its argument with integers, so four
    kinds of value make it raise [TypeError], with nothing stored and
    nothing printed: [None], every string (also one of digits such as
    ["36"]), every list and every dictionary.  A boolean is compared as 0
    or 1 and so is refused like any age out of range: the patient is left
    as it was and the message is printed. *)
Theorem age_setter_on_other_values (p : Patient.t) (out : list pystr) :
  Patient.set_age VNone (World p out) = (inl TypeError, World p out) /\
  (forall s : pystr,
     Patient.set_age (VStr s) (World p out) = (inl TypeError, World p out)) /\
  (forall l : list pyval,
     Patient.set_age (VList l) (World p out) = (inl TypeError, World p out)) /\
  (forall d : list (pystr * pyval),
     Patient.set_age (VDict d) (World p out) = (inl TypeError, World p out)) /\
  (forall b : bool,
     Patient.set_age (VBool b) (World p out) =
       (inr tt, World p (out ++ [u "Недопустимый возраст"]))).
Proof.
  refine (conj _ (conj _ (conj _ (conj _ _)))); try reflexivity.
  intros []; reflexivity.
Qed.

(** X15.  The abstract base class is never what a tag resolves to: any
    value that resolves is a string and resolves to one of the concrete
    classes, and the tag ["Patient"] itself is reported as unknown. *)
Theorem factory_never_resolves_base `{PyRuntime} :
  (forall (v : pyval) (c : PatientClass),
     PatientMeta.get_patient_class v = inr (Some c) ->
     c <> Patient /\ exists t : pystr, v = VStr t) /\
  (forall (args : list pyval) (kwargs : list (pystr * pyval)),
     PatientFactory.create_patient (VStr (u "Patient")) args kwargs =
       inl (ValueError (u "Неизвестный тип пациента: Patient"))).
Proof.
  split.
  - intros v c Hc. split; [exact (resolved_never_base v c Hc)|].
    destruct v; try discriminate Hc. now eexists.
  - intros args kwargs. rewrite create_patient_str.
    rewrite lookup_ascii_tag by reflexivity. reflexivity.
Qed.

Lemma factory_never_resolves_base_example :
  SeniorPatient <> Patient /\ exists t : pystr, VStr (u "SENIORPATIENT") = VStr t.
Proof.
  refine (proj1 factory_never_resolves_base (VStr (u "SENIORPATIENT")) SeniorPatient _).
  vm_compute; reflexivity.
Defined.

(** X16.  The factory passes its arguments to the constructor unchecked,
    so a wrong number of them is not a [ValueError]: for a tag that
    resolves to class [c], positional arguments whose number differs from
    the number of parameters of [c] raise [TypeError]. *)
Theorem factory_wrong_arity `{PyRuntime} (t : pystr) (c : PatientClass)
    (args : list pyval) :
  PatientMeta.get_patient_class (VStr t) = inr (Some c) ->
  length args <> length (Patient.init_params c) ->
  PatientFactory.create_patient (VStr t) args [] = inl TypeError.
Proof.
  intros Hc Hlen. pose proof (resolved_never_base _ _ Hc) as Hbase.
  rewrite get_patient_class_str in Hc. injection Hc as Hc.
  rewrite create_patient_str, Hc.
  destruct c; try contradiction;
    do 7 (destruct args as [|? args];
          [try (exfalso; apply Hlen; reflexivity); try reflexivity |]);
    reflexivity.
Qed.

Lemma factory_wrong_arity_examples :
  PatientFactory.create_patient (VStr (u "adultpatient"))
    [VStr (u "A123"); VStr (u "Иван Петров"); VInt 35; VStr (u "м");
     VStr (u "Аллергия на пыльцу")] [] = inl TypeError /\
  PatientFactory.create_patient (VStr (u "patientwithnotifications"))
    [VStr (u "P123"); VStr (u "Иван Петров"); VInt 35; VStr (u "м");
     VStr (u "Аллергия на пыльцу"); VStr (u "Программист")] [] = inl TypeError.
Proof.
  split.
  - apply (factory_wrong_arity (u "adultpatient") AdultPatient);
      [vm_compute; reflexivity | vm_compute; discriminate].
  - apply (factory_wrong_arity (u "patientwithnotifications")
             PatientWithNotifications);
      [vm_compute; reflexivity | vm_compute; discriminate].
Defined.

(* ================================================================== *)
(** ** The total of an appointment *)
(* ================================================================== *)

Lemma total_from (svs : list Service.t) (prices : list Z) (acc : Z) :
  map Service.price svs = map VInt prices ->
  fold_left (fun total s => rbind total (fun t => py_add t (Service.price s)))
    svs (inr (VInt acc)) = inr (VInt (acc + total_of prices)).
Proof.
  revert prices acc; induction svs as [|s svs IH]; intros [|z prices] acc Hp;
    try discriminate Hp.
  - cbn. now rewrite Z.add_0_r.
  - cbn [map] in Hp. injection Hp as Hs Hp.
    cbn [fold_left rbind total_of fold_right]. rewrite Hs. cbn [py_add].
    rewrite (IH prices (acc + z)%Z Hp). unfold total_of. f_equal. f_equal. lia.
Qed.

Lemma total_after_error (svs : list Service.t) (e : exn) :
  fold_left (fun total s => rbind total (fun t => py_add t (Service.price s)))
    svs (inl e) = inl e.
Proof. induction svs as [|s svs IH]; [reflexivity | exact IH]. Qed.

Lemma total_with_bad_price (svs : list Service.t) (acc : Z) :
  existsb (fun s => negb (is_number (Service.price s))) svs = true ->
  fold_left (fun total s => rbind total (fun t => py_add t (Service.price s)))
    svs (inr (VInt acc)) = inl TypeError.
Proof.
  revert acc; induction svs as [|s svs IH]; intros acc Hbad; [discriminate|].
  cbn [existsb] in Hbad. cbn [fold_left rbind].
  destruct (Service.price s) as [| b | z | t | l | d]; cbn [py_add];
    try apply total_after_error; cbn [is_number negb orb] in Hbad; now apply IH.
Qed.

(** X17.  When every price is an integer, [calculate_total] returns the
    sum of the prices, counting a service as often as it is listed; an
    appointment without services totals 0. *)
Theorem calculate_total_is_sum (a : Appointment.t) (prices : list Z) :
  map Service.price (Appointment.services a) = map VInt prices ->
  calculate_total a = inr (VInt (total_of prices)).
Proof.
  intros Hp. unfold calculate_total. now rewrite (total_from _ prices 0 Hp).
Qed.

Lemma calculate_total_is_sum_example :
  calculate_total (appointment_for ivan) = inr (VInt 2200).
Proof.
  apply (calculate_total_is_sum (appointment_for ivan) [1500; 700]%Z). reflexivity.
Defined.

(** X18.  One price that is not a number ([None], a string such as
    ["1500"], a list) makes [calculate_total] raise [TypeError], wherever
    the service stands in the sequence and whatever the other prices are. *)
Theorem calculate_total_needs_numbers (a : Appointment.t) :
  existsb (fun s => negb (is_number (Service.price s))) (Appointment.services a)
    = true ->
  calculate_total a = inl TypeError.
Proof. intros Hbad. unfold calculate_total. now apply total_with_bad_price. Qed.

Lemma calculate_total_with_text_price :
  calculate_total
    (Appointment.add_service (appointment_for ivan)
       (Service.Make (VStr (u "Рентген")) (VStr (u "1500")))) = inl TypeError.
Proof.
  apply calculate_total_needs_numbers. reflexivity.
Defined.

(** X19.  Adding a service adds its price: the total after [add_service]
    is the total before plus the price of the new service, and raises
    when the total before raised. *)
Theorem add_service_adds_price (a : Appointment.t) (s : Service.t) :
  calculate_total (Appointment.add_service a s) =
    rbind (calculate_total a) (fun t => py_add t (Service.price s)).
Proof.
  unfold calculate_total, Appointment.add_service.
  cbn [Appointment.services]. now rewrite fold_left_app.
Qed.

(** X20.  The total survives serialization: the appointment restored from
    [to_dict a] has the total of [a], or raises as [a] does. *)
Theorem restored_appointment_keeps_total `{PyRuntime} (a : Appointment.t) :
  exists r : Appointment.t,
    Appointment.from_dict (Appointment.to_dict a) = inr r /\
    calculate_total r = calculate_total a.
Proof.
  eexists. split; [apply appointment_from_dict_to_dict|].
  rewrite fold_add_service. reflexivity.
Qed.

(* ================================================================== *)
(** ** The clinic *)
(* ================================================================== *)

Lemma find_patient_none (patient_id : pyval) (ps : list Patient.t) :
  forallb (fun p => negb (has_id patient_id p)) ps = true ->
  Clinic.find_patient patient_id ps = None.
Proof.
  induction ps as [|p ps IH]; [reflexivity|].
  cbn [forallb Clinic.find_patient]. unfold has_id at 1.
  intros Hall. apply andb_true_iff in Hall. destruct Hall as [Hp Hall].
  apply negb_true_iff in Hp. now rewrite Hp, IH.
Qed.

Lemma find_patient_first (patient_id : pyval) (before after : list Patient.t)
    (p : Patient.t) :
  forallb (fun q => negb (has_id patient_id q)) before = true ->
  has_id patient_id p = true ->
  Clinic.find_patient patient_id (before ++ p :: after) = Some (length before, p).
Proof.
  intros Hbefore Hp. induction before as [|e before IH].
  - cbn [app Clinic.find_patient length]. unfold has_id in Hp. now rewrite Hp.
  - cbn [forallb] in Hbefore. apply andb_true_iff in Hbefore.
    destruct Hbefore as [He Hbefore]. apply negb_true_iff in He.
    unfold has_id in He.
    cbn [app Clinic.find_patient length]. now rewrite He, (IH Hbefore).
Qed.

Lemma find_patient_bound (patient_id : pyval) (ps : list Patient.t) (i : nat)
    (p : Patient.t) :
  Clinic.find_patient patient_id ps = Some (i, p) -> i < length ps.
Proof.
  revert i; induction ps as [|e ps IH]; intros i; [discriminate|].
  cbn [Clinic.find_patient length].
  destruct (py_eq _ patient_id).
  - intros Hf. injection Hf as <- _. lia.
  - destruct (Clinic.find_patient patient_id ps) as [[j q]|]; [|discriminate].
    intros Hf. injection Hf as <- <-. specialize (IH j eq_refl). lia.
Qed.

(** [remove] passes the entries that are not equal to the target. *)
Lemma list_remove_skips (target : Patient.t) (before rest : list Patient.t) (i : nat) :
  Forall (fun e => Patient.__eq__ e target = inr false) before ->
  Clinic.list_remove target (length before + i) (before ++ rest) =
    rbind (Clinic.list_remove target i rest) (fun rest' => inr (before ++ rest')).
Proof.
  induction 1 as [|e before He _ IH].
  - cbn [length app Nat.add]. now destruct (Clinic.list_remove target i rest).
  - cbn [length app Nat.add Clinic.list_remove]. rewrite He, IH. cbn [rbind].
    now destruct (Clinic.list_remove target i rest).
Qed.

Lemma list_remove_length (target : Patient.t) (ps remaining : list Patient.t)
    (i : nat) :
  i < length ps ->
  Clinic.list_remove target i ps = inr remaining ->
  length remaining + 1 = length ps /\ incl remaining ps.
Proof.
  revert i remaining; induction ps as [|e ps IH]; intros i remaining Hi;
    [cbn in Hi; lia|].
  destruct i as [|i]; cbn [Clinic.list_remove length].
  - intros Hr. injection Hr as <-. split; [lia | apply incl_tl, incl_refl].
  - destruct (Patient.__eq__ e target) as [err | []]; cbn [rbind];
      try discriminate.
    + intros Hr. injection Hr as <-. split; [lia | apply incl_tl, incl_refl].
    + destruct (Clinic.list_remove target i ps) as [err | rest'] eqn:Hrest;
        cbn [rbind]; [discriminate|].
      intros Hr. injection Hr as <-.
      cbn [length] in Hi. destruct (IH i rest' ltac:(lia) Hrest) as [Hlen Hincl].
      split; [cbn [length]; lia|].
      intros x [-> | Hx]; [left; reflexivity | right; now apply Hincl].
Qed.

Section ClinicFacts.
Context `{PyRuntime}.

Lemma remove_patient_found (patient_id : pyval) (s : Clinic.state) (i : nat)
    (p : Patient.t) (remaining : list Patient.t) :
  Clinic.find_patient patient_id (Clinic.patients s) = Some (i, p) ->
  Clinic.list_remove p i (Clinic.patients s) = inr remaining ->
  Clinic.remove_patient patient_id s =
    (inr tt,
     Clinic.State remaining (Clinic.printed s ++ [removal_line patient_id])
       (Clinic.logged s ++ [(INFO, removal_line patient_id)])).
Proof.
  intros Hf Hr. unfold Clinic.remove_patient, removal_line.
  rewrite Hf, Hr. reflexivity.
Qed.

Lemma remove_patient_match (patient_id : pyval) (s : Clinic.state)
    (before after : list Patient.t) (p : Patient.t) :
  Clinic.patients s = before ++ p :: after ->
  forallb (fun q => negb (has_id patient_id q)) before = true ->
  has_id patient_id p = true ->
  Forall (fun e => Patient.__eq__ e p = inr false) before ->
  Clinic.remove_patient patient_id s =
    (inr tt,
     Clinic.State (before ++ after) (Clinic.printed s ++ [removal_line patient_id])
       (Clinic.logged s ++ [(INFO, removal_line patient_id)])).
Proof.
  intros Hps Hids Hp Hne.
  apply (remove_patient_found patient_id s (length before) p).
  - rewrite Hps. now apply find_patient_first.
  - rewrite Hps, <- (Nat.add_0_r (length before)).
    rewrite (list_remove_skips p before (p :: after) 0 Hne). reflexivity.
Qed.
End ClinicFacts.

(** X21.  Removing an id that no patient of the clinic has (in particular
    from an empty clinic) raises [AppointmentNotFoundError]; the patients
    are left as they were, nothing is printed and one error is logged. *)
Theorem remove_unknown_patient `{PyRuntime} (patient_id : pyval) (s : Clinic.state) :
  forallb (fun p => negb (has_id patient_id p)) (Clinic.patients s) = true ->
  Clinic.remove_patient patient_id s =
    (inl (AppointmentNotFoundError (u "Пациент не найден.")),
     Clinic.State (Clinic.patients s) (Clinic.printed s)
       (Clinic.logged s ++ [(ERROR, u "Ошибка: Пациент не найден.")])).
Proof.
  intros Hall. unfold Clinic.remove_patient.
  now rewrite (find_patient_none _ _ Hall).
Qed.

Lemma remove_unknown_patient_example :
  Clinic.remove_patient (VStr (u "UNKNOWN_ID")) (Clinic.State [ivan; petr] [] []) =
    (inl (AppointmentNotFoundError (u "Пациент не найден.")),
     Clinic.State [ivan; petr] [] [(ERROR, u "Ошибка: Пациент не найден.")]).
Proof.
  refine (remove_unknown_patient (VStr (u "UNKNOWN_ID"))
            (Clinic.State [ivan; petr] [] []) _).
  vm_compute; reflexivity.
Defined.

(** X22.  When the first patient with the requested id is preceded only by
    patients that [==] finds different from it, [remove_patient] takes
    out exactly that patient and keeps the others in their order, prints
    one line and logs it. *)
Theorem remove_patient_takes_out_the_match `{PyRuntime} (patient_id : pyval)
    (s : Clinic.state) (before after : list Patient.t) (p : Patient.t) :
  Clinic.patients s = before ++ p :: after ->
  forallb (fun q => negb (has_id patient_id q)) before = true ->
  has_id patient_id p = true ->
  Forall (fun e => Patient.__eq__ e p = inr false) before ->
  Clinic.remove_patient patient_id s =
    (inr tt,
     Clinic.State (before ++ after) (Clinic.printed s ++ [removal_line patient_id])
       (Clinic.logged s ++ [(INFO, removal_line patient_id)])).
Proof. apply remove_patient_match. Qed.

Lemma remove_patient_takes_out_the_match_example :
  Clinic.remove_patient (VStr (u "S789")) (Clinic.State [ivan; petr; oleg] [] []) =
    (inr tt,
     Clinic.State [ivan; oleg] [u "Пациент с ID S789 удален из клиники."]
       [(INFO, u "Пациент с ID S789 удален из клиники.")]).
Proof.
  refine (eq_trans
            (remove_patient_takes_out_the_match (VStr (u "S789"))
               (Clinic.State [ivan; petr; oleg] [] []) [ivan] [oleg] petr
               eq_refl _ _ _) _).
  - vm_compute; reflexivity.
  - vm_compute; reflexivity.
  - repeat constructor.
  - vm_compute; reflexivity.
Defined.

(** X23.  [remove_patient] takes the patient out with [list.remove], which
    compares with [==]: when a patient that stands before the one with the
    requested id has the same age and history length, so that [==] holds,
    that earlier patient is removed and the patient with the requested id
    stays in the clinic; when that comparison raises, the exception leaves
    [remove_patient] and the clinic is unchanged. *)
Theorem remove_patient_can_take_out_another `{PyRuntime} (patient_id : pyval)
    (s : Clinic.state) (before middle after : list Patient.t) (e p : Patient.t) :
  Clinic.patients s = before ++ e :: middle ++ p :: after ->
  forallb (fun q => negb (has_id patient_id q)) (before ++ e :: middle) = true ->
  has_id patient_id p = true ->
  Forall (fun q => Patient.__eq__ q p = inr false) before ->
  (Patient.__eq__ e p = inr true ->
   Clinic.remove_patient patient_id s =
     (inr tt,
      Clinic.State (before ++ middle ++ p :: after)
        (Clinic.printed s ++ [removal_line patient_id])
        (Clinic.logged s ++ [(INFO, removal_line patient_id)]))) /\
  (forall err : exn,
     Patient.__eq__ e p = inl err ->
     Clinic.remove_patient patient_id s = (inl (Raised err), s)).
Proof.
  intros Hps Hids Hp Hne.
  assert (Hfind : Clinic.find_patient patient_id (Clinic.patients s) =
                  Some (length (before ++ e :: middle), p)).
  { rewrite Hps.
    replace (before ++ e :: middle ++ p :: after)
      with ((before ++ e :: middle) ++ p :: after)
      by (now rewrite <- app_assoc).
    now apply find_patient_first. }
  assert (Hremove : Clinic.list_remove p (length (before ++ e :: middle))
                      (Clinic.patients s) =
                    rbind (Patient.__eq__ e p) (fun equal =>
                      if equal : bool then inr (before ++ middle ++ p :: after)
                      else rbind
                             (rbind (Clinic.list_remove p (length middle)
                                       (middle ++ p :: after))
                                (fun rest' => inr (e :: rest')))
                             (fun rest' => inr (before ++ rest')))).
  { rewrite Hps, length_app. cbn [length].
    rewrite (list_remove_skips p before (e :: middle ++ p :: after)
               (S (length middle)) Hne).
    cbn [Clinic.list_remove].
    destruct (Patient.__eq__ e p) as [err | []]; reflexivity. }
  split.
  - intros Heq. rewrite Heq in Hremove. cbn [rbind] in Hremove.
    exact (remove_patient_found patient_id s _ p _ Hfind Hremove).
  - intros err Herr. rewrite Herr in Hremove. cbn [rbind] in Hremove.
    unfold Clinic.remove_patient. now rewrite Hfind, Hremove.
Qed.

Lemma remove_patient_takes_out_ivan_for_oleg :
  Clinic.remove_patient (VStr (u "B777")) (Clinic.State [petr; ivan; oleg] [] []) =
    (inr tt,
     Clinic.State [petr; oleg] [u "Пациент с ID B777 удален из клиники."]
       [(INFO, u "Пациент с ID B777 удален из клиники.")]) /\
  Clinic.remove_patient (VStr (u "B777"))
    (Clinic.State [ivan_without_history; oleg] [] []) =
    (inl (Raised TypeError), Clinic.State [ivan_without_history; oleg] [] []).
Proof.
  split.
  - refine (eq_trans
              (proj1 (remove_patient_can_take_out_another (VStr (u "B777"))
                        (Clinic.State [petr; ivan; oleg] [] []) [petr] [] []
                        ivan oleg eq_refl _ _ _) _) _).
    + vm_compute; reflexivity.
    + vm_compute; reflexivity.
    + repeat constructor.
    + vm_compute; reflexivity.
    + vm_compute; reflexivity.
  - refine (proj2 (remove_patient_can_take_out_another (VStr (u "B777"))
                     (Clinic.State [ivan_without_history; oleg] [] []) [] [] []
                     ivan_without_history oleg eq_refl _ _ _) TypeError _).
    + vm_compute; reflexivity.
    + vm_compute; reflexivity.
    + constructor.
    + vm_compute; reflexivity.
Defined.

(** X24.  A removal that succeeds takes out exactly one patient: the
    clinic has one patient fewer, every patient left was there before, and
    exactly one line is printed. *)
Theorem remove_patient_removes_one `{PyRuntime} (patient_id : pyval)
    (s s' : Clinic.state) :
  Clinic.remove_patient patient_id s = (inr tt, s') ->
  length (Clinic.patients s') + 1 = length (Clinic.patients s) /\
  incl (Clinic.patients s') (Clinic.patients s) /\
  Clinic.printed s' = Clinic.printed s ++ [removal_line patient_id].
Proof.
  unfold Clinic.remove_patient.
  destruct (Clinic.find_patient patient_id (Clinic.patients s)) as [[i p]|] eqn:Hf;
    [|discriminate].
  destruct (Clinic.list_remove p i (Clinic.patients s)) as [err | remaining] eqn:Hr;
    [discriminate|].
  intros Hs. injection Hs as <-. cbn [Clinic.patients Clinic.printed].
  destruct (list_remove_length p _ remaining i (find_patient_bound _ _ _ _ Hf) Hr)
    as [Hlen Hincl].
  repeat split; assumption || reflexivity.
Qed.

Lemma remove_patient_removes_one_example :
  length [ivan; oleg] + 1 = length [ivan; petr; oleg] /\
  incl [ivan; oleg] [ivan; petr; oleg] /\
  [u "Пациент с ID S789 удален из клиники."] =
    [] ++ [removal_line (VStr (u "S789"))].
Proof.
  refine (remove_patient_removes_one (VStr (u "S789"))
            (Clinic.State [ivan; petr; oleg] [] [])
            (Clinic.State [ivan; oleg] [u "Пациент с ID S789 удален из клиники."]
               [(INFO, u "Пациент с ID S789 удален из клиники.")]) _).
  vm_compute; reflexivity.
Defined.



Section SearchFacts.
Context `{PyRuntime}.

Lemma search_text_names (q : pystr) (ps : list Patient.t) :
  forallb has_text_name ps = true ->
  Clinic.search_by_name (VStr q) ps = inr (filter (name_matches q) ps).
Proof.
  induction ps as [|p ps IH]; [reflexivity|].
  cbn [forallb]. intros Hall. apply andb_true_iff in Hall.
  destruct Hall as [Hp Hall].
  cbn [Clinic.search_by_name filter py_lower rbind]. rewrite (IH Hall).
  unfold has_text_name in Hp. unfold name_matches.
  destruct (Patient.name (Patient.base p)); try discriminate Hp.
  cbn [py_lower rbind]. reflexivity.
Qed.

Lemma search_bad_name (q : pystr) (ps : list Patient.t) :
  forallb has_text_name ps = false ->
  Clinic.search_by_name (VStr q) ps = inl AttributeError.
Proof.
  induction ps as [|p ps IH]; [discriminate|].
  cbn [forallb Clinic.search_by_name py_lower rbind]. unfold has_text_name at 1.
  destruct (Patient.name (Patient.base p)); try reflexivity.
  cbn [andb py_lower rbind]. intros Hbad. now rewrite (IH Hbad).
Qed.

Lemma contains_empty (hay : pystr) : contains [] hay = true.
Proof. destruct hay; reflexivity. Qed.
End SearchFacts.

(** X26.  The search ignores case: two queries with the same lowercase
    form give the same result on every clinic, and a patient is found or
    not according to the lowercase form of its name alone. *)
Theorem search_ignores_case `{PyRuntime} (q1 q2 : pystr) (ps : list Patient.t) :
  lower q1 = lower q2 ->
  Clinic.search_by_name (VStr q1) ps = Clinic.search_by_name (VStr q2) ps.
Proof.
  intros Hq. induction ps as [|p ps IH]; [reflexivity|].
  cbn [Clinic.search_by_name py_lower rbind]. now rewrite Hq, IH.
Qed.

Lemma search_ignores_case_example :
  Clinic.search_by_name (VStr (u "ИВАН")) [ivan; petr; oleg] =
    Clinic.search_by_name (VStr (u "иван")) [ivan; petr; oleg].
Proof.
  apply (search_ignores_case (u "ИВАН") (u "иван") [ivan; petr; oleg]).
  vm_compute; reflexivity.
Defined.

(** X27.  On a clinic whose patients all have a string as name, the search
    never raises and returns, in the order of the clinic, exactly the
    patients whose lowercased name contains the lowercased query; the
    empty query returns every patient. *)
Theorem search_returns_matches `{PyRuntime} (q : pystr) (ps : list Patient.t) :
  forallb has_text_name ps = true ->
  Clinic.search_by_name (VStr q) ps = inr (filter (name_matches q) ps) /\
  Clinic.search_by_name (VStr []) ps = inr ps.
Proof.
  intros Hall. split; [now apply search_text_names|].
  rewrite (search_text_names [] ps Hall). f_equal.
  induction ps as [|p ps IH]; [reflexivity|].
  cbn [forallb] in Hall. apply andb_true_iff in Hall. destruct Hall as [Hp Hall].
  cbn [filter]. unfold name_matches at 1. unfold has_text_name in Hp.
  destruct (Patient.name (Patient.base p)); try discriminate Hp.
  rewrite (lower_ascii []) by reflexivity. cbn [map].
  rewrite contains_empty. now rewrite (IH Hall).
Qed.

Lemma search_returns_matches_example :
  Clinic.search_by_name (VStr (u "Иван")) [ivan; oleg; petr] = inr [ivan; petr] /\
  Clinic.search_by_name (VStr []) [ivan; oleg; petr] = inr [ivan; oleg; petr].
Proof.
  destruct (search_returns_matches (u "Иван") [ivan; oleg; petr] eq_refl)
    as [Hfound Hall].
  split; [|exact Hall]. rewrite Hfound. vm_compute; reflexivity.
Defined.

(** X28.  What makes the search raise: a query that is not a string as
    soon as the clinic has a patient, and a patient whose name is not a
    string (such as one restored from a record without [name]); both
    raise [AttributeError].  On an empty clinic nothing is evaluated and
    any query returns the empty list. *)
Theorem search_errors `{PyRuntime} (ps : list Patient.t) :
  (forall v : pyval, Clinic.search_by_name v [] = inr []) /\
  (forall v : pyval,
     ps <> [] -> (forall t : pystr, v <> VStr t) ->
     Clinic.search_by_name v ps = inl AttributeError) /\
  (forall q : pystr,
     forallb has_text_name ps = false ->
     Clinic.search_by_name (VStr q) ps = inl AttributeError).
Proof.
  refine (conj _ (conj _ _)).
  - reflexivity.
  - intros v Hps Hv. destruct ps as [|p ps]; [contradiction|].
    cbn [Clinic.search_by_name].
    destruct v; try reflexivity. now destruct (Hv s).
  - intros q. apply search_bad_name.
Qed.

Lemma search_errors_example :
  Clinic.search_by_name VNone [ivan] = inl AttributeError /\
  Clinic.search_by_name (VStr (u "Иван"))
    [ivan; Patient.WithNotifications (Patient.Fields VNone VNone VNone VNone (VStr []))]
    = inl AttributeError.
Proof.
  split.
  - refine (proj1 (proj2 (search_errors [ivan])) VNone _ _); discriminate.
  - refine (proj2 (proj2 (search_errors _)) (u "Иван") _). vm_compute; reflexivity.
Defined.

(* ================================================================== *)
(** ** The booking template and the history text *)
(* ================================================================== *)

(** X29.  The booking template never raises, whatever its three steps
    do.  The steps run in the order check, make, confirm; the first one
    that raises ends the run, the steps after it are not started, and one
    line naming the error is printed after what had been printed; when
    none raises, the world is what the last step left. *)
Theorem schedule_appointment_absorbs_errors {O : Type} (exn_text : exn -> pystr)
    (check make confirm : M O unit) (w : world O) :
  fst (schedule_appointment exn_text check make confirm w) = inr tt /\
  (forall e w1,
     check w = (inl e, w1) ->
     schedule_appointment exn_text check make confirm w =
       (inr tt, World (obj w1) (stdout w1 ++ [booking_error exn_text e]))) /\
  (forall w1 e w2,
     check w = (inr tt, w1) -> make w1 = (inl e, w2) ->
     schedule_appointment exn_text check make confirm w =
       (inr tt, World (obj w2) (stdout w2 ++ [booking_error exn_text e]))) /\
  (forall w1 w2 e w3,
     check w = (inr tt, w1) -> make w1 = (inr tt, w2) -> confirm w2 = (inl e, w3) ->
     schedule_appointment exn_text check make confirm w =
       (inr tt, World (obj w3) (stdout w3 ++ [booking_error exn_text e]))) /\
  (forall w1 w2 w3,
     check w = (inr tt, w1) -> make w1 = (inr tt, w2) -> confirm w2 = (inr tt, w3) ->
     schedule_appointment exn_text check make confirm w = (inr tt, w3)).
Proof.
  unfold schedule_appointment, bind, booking_error, print.
  refine (conj _ (conj _ (conj _ (conj _ _)))).
  - destruct (check w) as [[e | []] w1]; [reflexivity|].
    destruct (make w1) as [[e | []] w2]; [reflexivity|].
    destruct (confirm w2) as [[e | []] w3]; reflexivity.
  - intros e w1 ->. reflexivity.
  - intros w1 e w2 -> ->. reflexivity.
  - intros w1 w2 e w3 -> -> ->. reflexivity.
  - intros w1 w2 w3 -> -> ->. reflexivity.
Qed.

Lemma schedule_appointment_online :
  OnlineAppointmentProcess (fun _ => []) (World tt []) =
    (inr tt,
     World tt [ u "Проверка доступности врача онлайн...";
                u "Запись на прием через онлайн-систему...";
                u "Подтверждение записи через SMS или email..." ]) /\
  schedule_appointment (fun _ => u "занято") (raise TypeError)
    (print (u "Запись на прием через регистратуру..."))
    (print (u "Подтверждение записи через телефонный звонок...")) (World tt []) =
    (inr tt, World tt [u "Ошибка при записи на прием: занято"]).
Proof.
  split.
  - refine (proj2 (proj2 (proj2 (proj2
              (schedule_appointment_absorbs_errors (fun _ => []) _ _ _ (World tt [])))))
              _ _ _ eq_refl eq_refl eq_refl).
  - refine (eq_trans
              (proj1 (proj2
                 (schedule_appointment_absorbs_errors (fun _ => u "занято")
                    (raise TypeError) _ _ (World tt [])))
                 TypeError (World tt []) eq_refl) _).
    vm_compute; reflexivity.
Defined.

(** X30.  [get_medical_history] of an adult, child or senior patient joins
    its heading and the history with [+], so it returns a text that ends in
    the history when the history is a string and raises [TypeError] when it
    is anything else (such as the [None] of a record with a null history);
    a [PatientWithNotifications] formats the history and never raises. *)
Theorem get_medical_history_needs_text `{PyRuntime} (p : Patient.t) :
  (forall h : pystr,
     Patient.medical_history (Patient.base p) = VStr h ->
     exists heading : pystr, get_medical_history p = inr (VStr (heading ++ h))) /\
  (Patient.class_of p <> PatientWithNotifications ->
   (forall h : pystr, Patient.medical_history (Patient.base p) <> VStr h) ->
   get_medical_history p = inl TypeError) /\
  (Patient.class_of p = PatientWithNotifications ->
   exists text : pystr, get_medical_history p = inr (VStr text)).
Proof.
  refine (conj _ (conj _ _)).
  - intros h Hh.
    destruct p as [[i n a g m] x | [i n a g m] x | [i n a g m] x | [i n a g m]];
      cbn [Patient.base Patient.medical_history] in Hh; subst m;
      unfold get_medical_history;
      cbn [Patient.base Patient.medical_history Patient.name py_add];
      try (eexists; reflexivity).
    rewrite py_str_str. eexists. rewrite !app_assoc. reflexivity.
  - intros Hc Hm.
    destruct p as [[i n a g m] x | [i n a g m] x | [i n a g m] x | [i n a g m]];
      try (now destruct Hc);
      cbn [Patient.base Patient.medical_history] in Hm;
      unfold get_medical_history;
      cbn [Patient.base Patient.medical_history Patient.name];
      destruct m; try reflexivity; now destruct (Hm s).
  - intros Hc. destruct p; try discriminate Hc. eexists. reflexivity.
Qed.

Lemma get_medical_history_examples :
  (exists heading : pystr,
     get_medical_history ivan = inr (VStr (heading ++ u "Аллергия на пыльцу"))) /\
  get_medical_history ivan_without_history = inl TypeError.
Proof.
  split.
  - exact (proj1 (get_medical_history_needs_text ivan) _ eq_refl).
  - refine (proj1 (proj2 (get_medical_history_needs_text ivan_without_history)) _ _);
      discriminate.
Defined.
